(** * DoorBird integration: a shallow embedding and its specification

    The development embeds the three modules of
    [homeassistant/components/doorbird] ([__init__.py], [util.py] and
    [logbook.py]) as Rocq functions and proves the properties the
    specification states about them.

    Python values that travel through [hass.data], [entry.data] and event
    payloads are dynamically typed; they are embedded in one inductive
    type [value].  Code that reads or writes [hass], logs, or calls a
    collaborator runs in the monad [M], a state monad over [World] whose
    results are either a returned value or a raised exception.  The state
    reached when an exception is raised is kept, as in Python. *)

From stdpp Require Import gmap strings list fin_maps.
From Stdlib Require Import Ascii ZArith.

(** ** Python values *)

(** [DoorBird] is a handle on the vendor client built by
    [DoorBird(device_ip, username, password, secure=..., port=...)];
    [ConfiguredDoorBird] is the object of the class of that name in
    [__init__.py], with its two attributes [_device] and [_name]. *)
#[warnings="-register-all"]
Inductive value : Type :=
| VNone
| VBool (b : bool)
| VInt (n : Z)
| VStr (s : string)
| VList (l : list value)
| VDict (d : gmap string value)
| DoorBird (device_ip username password secure port : value)
| ConfiguredDoorBird (_device _name : value).

(** Python's truth value of an object, as tested by [not status[0]]. *)
Definition truthy (v : value) : bool :=
  match v with
  | VNone => false
  | VBool b => b
  | VInt n => negb (Z.eqb n 0)
  | VStr s => negb (String.eqb s "")
  | VList l => match l with [] => false | _ => true end
  | VDict d => negb (bool_decide (d = ∅))
  | DoorBird _ _ _ _ _ => true
  | ConfiguredDoorBird _ _ => true
  end.

(** ** Exceptions and results *)

(** [HTTPError] is [requests.exceptions.HTTPError]; it carries
    [err.response.status_code] ([raise_for_status] always attaches the
    response).  [OSError] stands for every other [OSError]; the message
    is its [str()].  [ConfigEntryNotReady] carries the [__cause__] set by
    [raise ... from err]. *)
#[warnings="-register-all"]
Inductive exception : Type :=
| HTTPError (status_code : Z)
| OSError (msg : string)
| ConfigEntryNotReady (cause : option exception)
| KeyError (key : string)
| IndexError
| TypeError
| AttributeError (attr : string)
| OtherException (name : string).

Inductive Result (A : Type) : Type :=
| Return (a : A)
| Raise (e : exception).
Arguments Return {A} a.
Arguments Raise {A} e.

(** [HTTPStatus.UNAUTHORIZED] *)
Definition UNAUTHORIZED : Z := 401%Z.

(** ** The clock *)

(** A UTC calendar time as [datetime.datetime] stores it. *)
Record datetime : Type := {
  year : Z; month : Z; day : Z;
  hour : Z; minute : Z; second : Z; microsecond : Z
}.

(** The decimal digit [n] as a character. *)
Definition digit (n : Z) : ascii := ascii_of_N (Z.to_N (48 + n)).

(** [n] in decimal on [width] digits, zero-padded ([%0<width>d]). *)
Fixpoint zfill (width : nat) (n : Z) : string :=
  match width with
  | O => ""
  | S k => String (digit ((n / 10 ^ Z.of_nat k) mod 10)%Z) (zfill k n)
  end.

(** Modelled from the spec: [homeassistant.util.dt] is not among the
    sources; the payload's timestamp is "current UTC time in ISO-8601".
    [isoformat] is [datetime.isoformat()] of a UTC-aware time:
    [YYYY-MM-DDTHH:MM:SS+00:00], with [.ffffff] after the seconds when the
    microsecond is not zero. *)
Definition isoformat (dt : datetime) : string :=
  zfill 4 (year dt) +:+ "-" +:+ zfill 2 (month dt) +:+ "-" +:+ zfill 2 (day dt)
  +:+ "T" +:+ zfill 2 (hour dt) +:+ ":" +:+ zfill 2 (minute dt)
  +:+ ":" +:+ zfill 2 (second dt)
  +:+ (if Z.eqb (microsecond dt) 0 then "" else "." +:+ zfill 6 (microsecond dt))
  +:+ "+00:00".

(** The calendar: what makes a [datetime] a time that exists. *)
Definition is_leap (y : Z) : bool :=
  (Z.eqb (y mod 4) 0 && negb (Z.eqb (y mod 100) 0)) || Z.eqb (y mod 400) 0.

Definition days_in_month (y m : Z) : Z :=
  (if Z.eqb m 2 then (if is_leap y then 29 else 28)
   else if Z.eqb m 4 || Z.eqb m 6 || Z.eqb m 9 || Z.eqb m 11 then 30
   else 31)%Z.

Definition valid_datetime (dt : datetime) : bool :=
  ((1 <=? year dt) && (year dt <=? 9999)
   && (1 <=? month dt) && (month dt <=? 12)
   && (1 <=? day dt) && (day dt <=? days_in_month (year dt) (month dt))
   && (0 <=? hour dt) && (hour dt <? 24)
   && (0 <=? minute dt) && (minute dt <? 60)
   && (0 <=? second dt) && (second dt <? 60)
   && (0 <=? microsecond dt) && (microsecond dt <? 1000000))%Z.

(** A reader of ISO-8601 extended-format UTC timestamps: it accepts
    exactly the strings [YYYY-MM-DDTHH:MM:SS[.ffffff]+00:00] that name an
    existing time, and answers that time. *)
Fixpoint read_digits (k : nat) (acc : Z) (s : string) : option (Z * string) :=
  match k with
  | O => Some (acc, s)
  | S k' =>
      match s with
      | String c s' =>
          let n := Z.of_N (N_of_ascii c) in
          if ((48 <=? n) && (n <=? 57))%Z
          then read_digits k' (10 * acc + (n - 48))%Z s'
          else None
      | EmptyString => None
      end
  end.

Definition expect (c : ascii) (s : string) : option string :=
  match s with
  | String c' s' => if Ascii.eqb c c' then Some s' else None
  | EmptyString => None
  end.

Definition parse_iso8601_utc (s : string) : option datetime :=
  '(y, s) ← read_digits 4 0 s;
  s ← expect "-" s;
  '(mo, s) ← read_digits 2 0 s;
  s ← expect "-" s;
  '(d, s) ← read_digits 2 0 s;
  s ← expect "T" s;
  '(h, s) ← read_digits 2 0 s;
  s ← expect ":" s;
  '(mi, s) ← read_digits 2 0 s;
  s ← expect ":" s;
  '(sec, s) ← read_digits 2 0 s;
  '(us, s) ← match expect "." s with
             | Some s' => read_digits 6 0 s'
             | None => Some (0%Z, s)
             end;
  let dt := {| year := y; month := mo; day := d;
               hour := h; minute := mi; second := sec; microsecond := us |} in
  if String.eqb s "+00:00" && valid_datetime dt then Some dt else None.

(** ** The world *)

(** What the component does to the outside, in the order it does it:
    calls on the logger, [print], calls on the device client
    ([start_monitoring], [stop_monitoring]), on the host's config-entry
    manager and bus, and the writes to [hass.data[DOMAIN]] ([SetItem] for
    [hass.data[DOMAIN][key] = v], [Pop] for [hass.data[DOMAIN].pop(key)]).
    An argument that Python renders with [%s] or [str()] is recorded as
    the value rendered. *)
Inductive effect : Type :=
| LoggerError (msg : string) (args : list value)
| Printed (text : string)
| StartMonitoring (device doorstation : value) (entry_id : string)
| StopMonitoring (device : value)
| ForwardEntrySetups (entry_id : string) (platforms : list string)
| UnloadPlatforms (entry_id : string) (platforms : list string)
| BusFire (event_type : string) (event_data : gmap string value)
| SetItem (key : string) (v : value)
| Pop (key : string).

(** [hass]: the shared dictionary [hass.data], the effects performed so
    far, and the current UTC time. *)
Record World : Type := {
  hass_data : gmap string value;
  trace : list effect;
  now : datetime
}.

Definition set_hass_data (d : gmap string value) (w : World) : World :=
  {| hass_data := d; trace := trace w; now := now w |}.

Definition emit (e : effect) (w : World) : World :=
  {| hass_data := hass_data w; trace := trace w ++ [e]; now := now w |}.

(** ** The monad *)

Definition M (A : Type) : Type := World → Result A * World.

#[export] Instance M_ret : MRet M := λ A a w, (Return a, w).

#[export] Instance M_bind : MBind M := λ A B f m w,
  match m w with
  | (Return a, w') => f a w'
  | (Raise e, w') => (Raise e, w')
  end.

Definition raise {A : Type} (e : exception) : M A := λ w, (Raise e, w).

Definition lift {A : Type} (r : Result A) : M A := λ w, (r, w).

Definition perform (e : effect) : M unit := λ w, (Return tt, emit e w).

(** [try: body / except ...: handler]: the handler receives the exception
    and re-raises it when no clause matches. *)
Definition try_except {A : Type} (body : M A) (handler : exception → M A) : M A :=
  λ w, match body w with
       | (Return a, w') => (Return a, w')
       | (Raise e, w') => handler e w'
       end.

(** ** Python dictionary operations *)

(** [d[key]] on a mapping *)
Definition subscript (d : gmap string value) (key : string) : M value :=
  match d !! key with
  | Some v => mret v
  | None => raise (KeyError key)
  end.

(** [d.get(key, default)] on a mapping *)
Definition get (d : gmap string value) (key : string) (default : value) : value :=
  match d !! key with
  | Some v => v
  | None => default
  end.

(** [obj[key]] on an arbitrary object: only dictionaries are subscriptable
    by a string key. *)
Definition getitem (obj : value) (key : string) : M value :=
  match obj with
  | VDict d => subscript d key
  | _ => raise TypeError
  end.

(** [obj.get(key, default)] on an arbitrary object *)
Definition getattr_get (obj : value) (key : string) (default : value) : M value :=
  match obj with
  | VDict d => mret (get d key default)
  | _ => raise (AttributeError "get")
  end.

(** [hass.data[key]] *)
Definition hass_data_getitem (key : string) : M value :=
  λ w, subscript (hass_data w) key w.

(** ** Collaborators that are not part of the component *)

(** Constants imported from [.const], [homeassistant.const] and
    [homeassistant.components.logbook]. *)
Class Constants : Type := {
  DOMAIN : string;
  DOOR_STATION : string;
  DOOR_STATION_INFO : string;
  DOOR_STATION_EVENT_ENTITY_IDS : string;
  PLATFORMS : list string;
  ATTR_ENTITY_ID : string;
  CONF_HOST : string;
  CONF_USERNAME : string;
  CONF_PASSWORD : string;
  CONF_SSL : string;
  CONF_PORT : string;
  CONF_NAME : string;
  LOGBOOK_ENTRY_NAME : string;
  LOGBOOK_ENTRY_MESSAGE : string;
  LOGBOOK_ENTRY_ENTITY_ID : string
}.

(** The vendor client ([doorbirdpy]): [device.ready()] answers a pair
    [(ready, code)] or raises, [device.info()] answers the info mapping or
    raises, and four properties give the media URLs. *)
Class DoorBirdPy : Type := {
  ready : value → Result (value * value);
  info : value → Result value;
  live_video_url : value → value;
  live_image_url : value → value;
  rtsp_live_video_url : value → value;
  html5_viewer_url : value → value
}.

(** The host's answer to [hass.config_entries.async_unload_platforms]. *)
Class ConfigEntries : Type := {
  unload_platforms_ok : string → list string → bool
}.

(** [homeassistant.config_entries.ConfigEntry]: the two attributes read. *)
Record ConfigEntry : Type := {
  entry_id : string;
  data : gmap string value
}.

Section Component.
Context {K : Constants} {sdk : DoorBirdPy} {host : ConfigEntries}.

(** ** [__init__.py] *)

(** Calls on collaborators, each recorded in the trace. *)

(** [_LOGGER.error(msg, *args)] *)
Definition logger_error (msg : string) (args : list value) : M unit :=
  perform (LoggerError msg args).

(** [print(text)] *)
Definition print (text : string) : M unit :=
  perform (Printed text).

(** [device.start_monitoring(handle_event, handle_error)]: the two
    closures are recorded by what they capture, the session
    [doorstation] and the entry id. *)
Definition start_monitoring (device doorstation : value) (entry_id : string) : M unit :=
  perform (StartMonitoring device doorstation entry_id).

(** [await device.stop_monitoring()] *)
Definition stop_monitoring (device : value) : M unit :=
  perform (StopMonitoring device).

(** [await hass.config_entries.async_forward_entry_setups(entry, platforms)] *)
Definition async_forward_entry_setups (entry : ConfigEntry) (platforms : list string) : M unit :=
  perform (ForwardEntrySetups (entry_id entry) platforms).

(** [await hass.config_entries.async_unload_platforms(entry, platforms)] *)
Definition async_unload_platforms (entry : ConfigEntry) (platforms : list string) : M bool :=
  _ ← perform (UnloadPlatforms (entry_id entry) platforms);
  mret (unload_platforms_ok (entry_id entry) platforms).

(** [hass.bus.async_fire(event_type, event_data)] *)
Definition async_fire (event_type : string) (event_data : gmap string value) : M unit :=
  perform (BusFire event_type event_data).

(** [async_setup]: [hass.data.setdefault(DOMAIN, {})], then [return True]. *)
Definition async_setup : M bool :=
  λ w, match hass_data w !! DOMAIN with
       | Some _ => (Return true, w)
       | None => (Return true, set_hass_data (<[DOMAIN := VDict ∅]> (hass_data w)) w)
       end.

Definition _init_doorbird_device (device : value) : M ((value * value) * value) :=
  status ← lift (ready device);
  info ← lift (info device);
  mret (status, info).

(** [await hass.async_add_executor_job(f, arg)]: the job's result, or the
    exception it raised. *)
Definition async_add_executor_job {A B : Type} (f : A → M B) (arg : A) : M B :=
  f arg.

(** [hass.data[DOMAIN][key] = v] *)
Definition domain_setitem (key : string) (v : value) : M unit :=
  registry ← hass_data_getitem DOMAIN;
  match registry with
  | VDict d =>
      λ w, (Return tt,
            emit (SetItem key v)
              (set_hass_data (<[DOMAIN := VDict (<[key := v]> d)]> (hass_data w)) w))
  | _ => raise TypeError
  end.

(** [hass.data[DOMAIN].pop(key)] *)
Definition domain_pop (key : string) : M value :=
  registry ← hass_data_getitem DOMAIN;
  match registry with
  | VDict d =>
      match d !! key with
      | Some v =>
          λ w, (Return v,
                emit (Pop key)
                  (set_hass_data (<[DOMAIN := VDict (delete key d)]> (hass_data w)) w))
      | None => raise (KeyError key)
      end
  | _ => raise (AttributeError "pop")
  end.

(** The [device] property of [ConfiguredDoorBird]. *)
Definition device (self : value) : M value :=
  match self with
  | ConfiguredDoorBird _device _ => mret _device
  | _ => raise (AttributeError "device")
  end.

(** The [name] property of [ConfiguredDoorBird]. *)
Definition name (self : value) : M value :=
  match self with
  | ConfiguredDoorBird _ _name => mret _name
  | _ => raise (AttributeError "name")
  end.

(** [async_setup_entry].  The [try] statement yields [inl b] when a
    handler executed [return b], and [inr (status, info)] when the
    handshake returned. *)
Definition async_setup_entry (entry : ConfigEntry) : M bool :=
  let doorstation_config := data entry in
  let config_entry_id := entry_id entry in
  device_ip ← subscript doorstation_config CONF_HOST;
  username ← subscript doorstation_config CONF_USERNAME;
  password ← subscript doorstation_config CONF_PASSWORD;
  secure ← subscript doorstation_config CONF_SSL;
  port ← subscript doorstation_config CONF_PORT;
  let device := DoorBird device_ip username password secure port in
  outcome ←
    try_except
      (r ← async_add_executor_job _init_doorbird_device device; mret (inr r))
      (λ err,
         match err with
         | HTTPError status_code =>
             if Z.eqb status_code UNAUTHORIZED then
               _ ← logger_error "Authorization rejected by DoorBird for %s@%s"
                     [username; device_ip];
               mret (inl false)
             else raise (ConfigEntryNotReady (Some err))
         | OSError oserr =>
             _ ← logger_error "Failed to setup doorbird at %s: %s"
                   [device_ip; VStr oserr];
             raise (ConfigEntryNotReady (Some err))
         | _ => raise err
         end);
  match outcome with
  | inl result => mret result
  | inr (status, info) =>
      if negb (truthy (fst status)) then
        _ ← logger_error "Could not connect to DoorBird as %s@%s: Error %s"
              [username; device_ip; snd status];
        raise (ConfigEntryNotReady None)
      else
        let name := get doorstation_config CONF_NAME VNone in
        let doorstation := ConfiguredDoorBird device name in
        _ ← start_monitoring device doorstation (entry_id entry);
        _ ← domain_setitem config_entry_id
              (VDict (<[DOOR_STATION_INFO := info]> (<[DOOR_STATION := doorstation]> ∅)));
        _ ← async_forward_entry_setups entry PLATFORMS;
        mret true
  end.

Definition async_unload_entry (entry : ConfigEntry) : M bool :=
  registry ← hass_data_getitem DOMAIN;
  registry_entry ← getitem registry (entry_id entry);
  doorstation ← getitem registry_entry DOOR_STATION;
  device ← device doorstation;
  _ ← stop_monitoring device;
  unload_ok ← async_unload_platforms entry PLATFORMS;
  _ ← (if (unload_ok : bool) then _ ← domain_pop (entry_id entry); mret tt else mret tt);
  mret unload_ok.

(** Modelled from the spec: [dt_util.utcnow()] of [homeassistant.util.dt],
    which is not among the sources, answers the current UTC time: the
    clock of the world. *)
Definition utcnow : M datetime := λ w, (Return (now w), w).

(** [ConfiguredDoorBird.get_event_data] *)
Definition get_event_data (self : value) : M (gmap string value) :=
  match self with
  | ConfiguredDoorBird _device _ =>
      t ← utcnow;
      mret (<["html5_viewer_url" := html5_viewer_url _device]>
            (<["rtsp_live_video_url" := rtsp_live_video_url _device]>
             (<["live_image_url" := live_image_url _device]>
              (<["live_video_url" := live_video_url _device]>
               (<["timestamp" := VStr (isoformat t)]> ∅)))))
  | _ => raise (AttributeError "get_event_data")
  end.

(** The closure [async_notify_event] of [async_setup_entry]; its free
    variable [doorstation] is a parameter. *)
Definition async_notify_event (doorstation : value) (event : string) : M unit :=
  _ ← print ("FIRING EVENT: " +:+ event);
  event_data ← get_event_data doorstation;
  registry ← hass_data_getitem DOMAIN;
  index ← getitem registry DOOR_STATION_EVENT_ENTITY_IDS;
  entity_id ← getattr_get index event VNone;
  let event_data := <[ATTR_ENTITY_ID := entity_id]> event_data in
  async_fire (DOMAIN +:+ "_" +:+ event) event_data.

End Component.

(** ** [util.py] *)

Module util.

Definition get_mac_address_from_doorstation_info
    (doorstation_info : gmap string value) : M value :=
  if bool_decide ("PRIMARY_MAC_ADDR" ∈ dom doorstation_info)
  then subscript doorstation_info "PRIMARY_MAC_ADDR"
  else subscript doorstation_info "WIFI_MAC_ADDR".

(** [needle in haystack] on two strings *)
Fixpoint is_substring (needle haystack : string) : bool :=
  String.prefix needle haystack
  || match haystack with
     | EmptyString => false
     | String _ rest => is_substring needle rest
     end.

(** [key in container] for a string [key]: a dictionary is asked for the
    key, a string for the substring, a list for an equal element (only a
    string is equal to a string); other objects are not containers. *)
Definition contains (container : value) (key : string) : M bool :=
  match container with
  | VDict d => mret (bool_decide (key ∈ dom d))
  | VStr s => mret (is_substring key s)
  | VList l =>
      mret (existsb (λ v, match v with VStr s => String.eqb s key | _ => false end) l)
  | _ => raise TypeError
  end.

Section Util.
Context {K : Constants}.

(** The comprehension
    [entry[DOOR_STATION] for entry in entries if DOOR_STATION in entry]. *)
Fixpoint door_stations (entries : list value) : M (list value) :=
  match entries with
  | [] => mret []
  | entry :: rest =>
      present ← contains entry DOOR_STATION;
      if (present : bool) then
        doorstation ← getitem entry DOOR_STATION;
        doorstations ← door_stations rest;
        mret (doorstation :: doorstations)
      else door_stations rest
  end.

(** [get_all_doorstations].  Python answers the door stations in the
    order in which the registry was filled; the registry is a map that
    does not record that order, so the answer is given in the order of
    the map and only what does not depend on the order is stated of it. *)
Definition get_all_doorstations : M (list value) :=
  registry ← hass_data_getitem DOMAIN;
  match registry with
  | VDict d => door_stations (snd <$> map_to_list d)
  | _ => raise (AttributeError "values")
  end.

End Util.

End util.

(** ** [logbook.py] *)

Module logbook.

(** [homeassistant.core.Event]: the two attributes read. *)
Record Event : Type := {
  event_type : string;
  data : gmap string value
}.

(** [s.split(sep, 1)] for a one-character separator *)
Fixpoint split_1 (sep : ascii) (s : string) : list string :=
  match s with
  | EmptyString => [""]
  | String c s' =>
      if Ascii.eqb c sep then [""; s']
      else match split_1 sep s' with
           | head :: tail => String c head :: tail
           | [] => []
           end
  end.

(** [l[i]] on a list *)
Definition list_getitem {A : Type} (l : list A) (i : nat) : M A :=
  match l !! i with
  | Some x => mret x
  | None => raise IndexError
  end.

Section Logbook.
Context {K : Constants}.

Definition async_describe_logbook_event (event : Event) : M (gmap string value) :=
  doorbird_event ← list_getitem (split_1 "_" (event_type event)) 1;
  registry ← hass_data_getitem DOMAIN;
  index ← getitem registry DOOR_STATION_EVENT_ENTITY_IDS;
  entity_id ← getattr_get index doorbird_event (get (data event) ATTR_ENTITY_ID VNone);
  mret (<[LOGBOOK_ENTRY_ENTITY_ID := entity_id]>
        (<[LOGBOOK_ENTRY_MESSAGE := VStr ("Event " +:+ event_type event +:+ " was fired")]>
         (<[LOGBOOK_ENTRY_NAME := VStr "Doorbird"]> ∅))).

End Logbook.

End logbook.

(** * Properties *)

(** ** Definitions used to state the properties *)

Section Vocabulary.
Context {K : Constants} {sdk : DoorBirdPy}.

(** The client [async_setup_entry] constructs, for an entry whose data
    holds the five keys the code subscripts. *)
Definition device_of_entry (entry : ConfigEntry) : option value :=
  device_ip ← data entry !! CONF_HOST;
  username ← data entry !! CONF_USERNAME;
  password ← data entry !! CONF_PASSWORD;
  secure ← data entry !! CONF_SSL;
  port ← data entry !! CONF_PORT;
  Some (DoorBird device_ip username password secure port).

(** The shared registry [hass.data[DOMAIN]], when it is there. *)
Definition registry (w : World) : option (gmap string value) :=
  match hass_data w !! DOMAIN with
  | Some (VDict d) => Some d
  | _ => None
  end.

(** The EntityIdIndex [hass.data[DOMAIN][DOOR_STATION_EVENT_ENTITY_IDS]]. *)
Definition entity_id_index (w : World) : option (gmap string value) :=
  d ← registry w;
  match d !! DOOR_STATION_EVENT_ENTITY_IDS with
  | Some (VDict index) => Some index
  | _ => None
  end.

(** The handshake of the setup, run from the world [w]. *)
Definition handshake (device : value) (w : World) : Result ((value * value) * value) :=
  fst (async_add_executor_job _init_doorbird_device device w).

(** Is the effect a registration of callbacks with the monitor? *)
Definition is_start_monitoring (e : effect) : bool :=
  match e with
  | StartMonitoring _ _ _ => true
  | _ => false
  end.

(** Is the effect a write to the registry? *)
Definition is_registry_write (e : effect) : bool :=
  match e with
  | SetItem _ _ | Pop _ => true
  | _ => false
  end.

End Vocabulary.

(** Does the character occur in the string? *)
Fixpoint occurs (c : ascii) (s : string) : bool :=
  match s with
  | EmptyString => false
  | String c' s' => Ascii.eqb c' c || occurs c s'
  end.

(** ** A concrete installation

    One set of constants, one device client and one host, on which the
    theorems below are exercised.  The client answers by the address of
    the device: [10.0.0.2] rejects the credentials, [10.0.0.3] refuses
    the connection, [10.0.0.4] answers with a server error, [10.0.0.5] is
    not ready, every other address is a working device. *)

Module fixture.

Definition constants : Constants := {|
  DOMAIN := "doorbird";
  DOOR_STATION := "door_station";
  DOOR_STATION_INFO := "door_station_info";
  DOOR_STATION_EVENT_ENTITY_IDS := "door_station_event_entity_ids";
  PLATFORMS := ["button"; "camera"; "switch"];
  ATTR_ENTITY_ID := "entity_id";
  CONF_HOST := "host";
  CONF_USERNAME := "username";
  CONF_PASSWORD := "password";
  CONF_SSL := "ssl";
  CONF_PORT := "port";
  CONF_NAME := "name";
  LOGBOOK_ENTRY_NAME := "name";
  LOGBOOK_ENTRY_MESSAGE := "message";
  LOGBOOK_ENTRY_ENTITY_ID := "entity_id"
|}.

Definition host_of (device : value) : string :=
  match device with
  | DoorBird (VStr device_ip) _ _ _ _ => device_ip
  | _ => ""
  end.

Definition device_info : value :=
  VDict (<["WIFI_MAC_ADDR" := VStr "1CCAE3700000"]> (<["FIRMWARE" := VStr "000125"]> ∅)).

Definition sdk : DoorBirdPy := {|
  ready device :=
    if String.eqb (host_of device) "10.0.0.3" then Raise (OSError "Connection refused")
    else if String.eqb (host_of device) "10.0.0.5" then Return (VBool false, VInt 503)
    else Return (VBool true, VInt 200);
  info device :=
    if String.eqb (host_of device) "10.0.0.2" then Raise (HTTPError 401)
    else if String.eqb (host_of device) "10.0.0.4" then Raise (HTTPError 500)
    else Return device_info;
  live_video_url device := VStr ("http://" +:+ host_of device +:+ "/bha-api/video.cgi");
  live_image_url device := VStr ("http://" +:+ host_of device +:+ "/bha-api/image.cgi");
  rtsp_live_video_url device := VStr ("rtsp://" +:+ host_of device +:+ ":8557/mpeg/media.amp");
  html5_viewer_url device := VStr ("http://" +:+ host_of device +:+ "/bha-api/view.html")
|}.

(** Platform unload succeeds for every entry but the one called [stuck]. *)
Definition host : ConfigEntries := {|
  unload_platforms_ok entry_id platforms := negb (String.eqb entry_id "stuck")
|}.

Definition entry_for (id device_ip : string) : ConfigEntry := {|
  entry_id := id;
  data := <["port" := VInt 80]> (<["ssl" := VBool false]> (<["password" := VStr "secret"]>
          (<["username" := VStr "user0001"]> (<["host" := VStr device_ip]> ∅))))
|}.

Definition device_at (device_ip : string) : value :=
  DoorBird (VStr device_ip) (VStr "user0001") (VStr "secret") (VBool false) (VInt 80).

Definition session_at (device_ip : string) : value :=
  ConfiguredDoorBird (device_at device_ip) VNone.

Definition clock : datetime := {|
  year := 2023; month := 4; day := 9;
  hour := 7; minute := 5; second := 30; microsecond := 1200
|}.

(** The host before and after [async_setup]. *)
Definition boot : World := {| hass_data := ∅; trace := []; now := clock |}.

Definition started : World := snd (@async_setup constants boot).

(** After the setup of entry [e1] on a working device, and of [stuck]. *)
Definition loaded : World :=
  snd (@async_setup_entry constants sdk (entry_for "e1" "10.0.0.1") started).

Definition loaded_stuck : World :=
  snd (@async_setup_entry constants sdk (entry_for "stuck" "10.0.0.1") started).

(** After a platform has registered its entity for the doorbell event. *)
Definition entity_ids : gmap string value :=
  <["doorbell" := VStr "button.front_door"]> ∅.

Definition indexed : World :=
  set_hass_data
    (<["doorbird" := VDict (<["door_station_event_entity_ids" := VDict entity_ids]> ∅)]> ∅)
    started.

End fixture.

(** ** Further vocabulary *)



(** Is the effect an event fired on the bus? *)
Definition is_bus_fire (e : effect) : bool :=
  match e with
  | BusFire _ _ => true
  | _ => false
  end.

(** ** More devices

    The client of the installation above, with two more devices: the
    info answer of [10.0.0.6] lacks a field the client reads (a
    [KeyError] inside the client), and [10.0.0.7] reports not-ready while
    its info query is rejected with status 401. *)

Module fixture_edge.

Definition sdk : DoorBirdPy := {|
  ready device :=
    if String.eqb (fixture.host_of device) "10.0.0.7" then Return (VBool false, VInt 401)
    else @ready fixture.sdk device;
  info device :=
    if String.eqb (fixture.host_of device) "10.0.0.6" then Raise (KeyError "BHA")
    else if String.eqb (fixture.host_of device) "10.0.0.7" then Raise (HTTPError 401)
    else @info fixture.sdk device;
  live_video_url := @live_video_url fixture.sdk;
  live_image_url := @live_image_url fixture.sdk;
  rtsp_live_video_url := @rtsp_live_video_url fixture.sdk;
  html5_viewer_url := @html5_viewer_url fixture.sdk
|}.

(** An entry whose data lacks the port. *)
Definition entry_without_port : ConfigEntry := {|
  entry_id := "e8";
  data := <["ssl" := VBool false]> (<["password" := VStr "secret"]>
          (<["username" := VStr "user0001"]> (<["host" := VStr "10.0.0.1"]> ∅)))
|}.

(** The installation with the entity registered and entry [e1] set up. *)
Definition loaded_indexed : World :=
  snd (@async_setup_entry fixture.constants fixture.sdk
         (fixture.entry_for "e1" "10.0.0.1") fixture.indexed).

End fixture_edge.

(** ** Lemmas *)

(** ** Strings and the timestamp reader *)

Lemma append_String (c : ascii) (s rest : string) :
  String c s +:+ rest = String c (s +:+ rest).
Proof. reflexivity. Qed.

Lemma append_empty (rest : string) : "" +:+ rest = rest.
Proof. reflexivity. Qed.

Lemma expect_String (c : ascii) (s : string) : expect c (String c s) = Some s.
Proof. unfold expect. by rewrite Ascii.eqb_refl. Qed.

Lemma digit_value (d : Z) :
  (0 ≤ d < 10)%Z → Z.of_N (N_of_ascii (digit d)) = (48 + d)%Z.
Proof.
  intros Hd. unfold digit.
  rewrite N_ascii_embedding by lia. lia.
Qed.

Lemma read_digits_zfill (k : nat) :
  ∀ (acc n : Z) (rest : string),
    (0 ≤ n)%Z →
    read_digits k acc (zfill k n +:+ rest)
    = Some ((acc * 10 ^ Z.of_nat k + n mod 10 ^ Z.of_nat k)%Z, rest).
Proof.
  induction k as [|k IH]; intros acc n rest Hn.
  - cbn [read_digits zfill]. rewrite append_empty. f_equal. f_equal.
    change (10 ^ Z.of_nat 0)%Z with 1%Z. rewrite Z.mod_1_r. lia.
  - cbn [read_digits zfill]. rewrite append_String. cbv zeta.
    set (d := ((n / 10 ^ Z.of_nat k) mod 10)%Z).
    assert (Hd : (0 ≤ d < 10)%Z) by (apply Z.mod_pos_bound; lia).
    rewrite digit_value by exact Hd.
    replace ((48 <=? 48 + d)%Z && (48 + d <=? 57)%Z) with true
      by (symmetry; apply andb_true_intro; split; apply Z.leb_le; lia).
    rewrite IH by exact Hn.
    f_equal. f_equal.
    rewrite Nat2Z.inj_succ, Z.pow_succ_r by lia.
    assert (Hp : (0 < 10 ^ Z.of_nat k)%Z) by (apply Z.pow_pos_nonneg; lia).
    rewrite (Z.mul_comm 10 (10 ^ Z.of_nat k)).
    rewrite Z.rem_mul_r by lia.
    fold d. lia.
Qed.

Lemma read_digits_zfill_small (k : nat) (n : Z) (rest : string) :
  (0 ≤ n < 10 ^ Z.of_nat k)%Z →
  read_digits k 0 (zfill k n +:+ rest) = Some (n, rest).
Proof.
  intros Hn. rewrite read_digits_zfill by lia.
  rewrite Z.mod_small by lia. f_equal.
Qed.

Lemma valid_datetime_bounds (dt : datetime) :
  valid_datetime dt = true →
  (1 ≤ year dt ≤ 9999 ∧ 1 ≤ month dt ≤ 12 ∧ 1 ≤ day dt ≤ 31 ∧
   0 ≤ hour dt < 24 ∧ 0 ≤ minute dt < 60 ∧ 0 ≤ second dt < 60 ∧
   0 ≤ microsecond dt < 1000000)%Z.
Proof.
  unfold valid_datetime. rewrite !andb_true_iff.
  rewrite !Z.leb_le, !Z.ltb_lt.
  assert (days_in_month (year dt) (month dt) ≤ 31)%Z.
  { unfold days_in_month. repeat case_match; lia. }
  lia.
Qed.

Ltac read_field :=
  rewrite read_digits_zfill_small by (cbn; lia);
  cbn [mbind option_bind];
  rewrite ?append_String, ?append_empty, ?expect_String;
  cbn [mbind option_bind].

(** A timestamp written by [isoformat] reads back to the time it was
    written from. *)
Lemma parse_isoformat (dt : datetime) :
  valid_datetime dt = true → parse_iso8601_utc (isoformat dt) = Some dt.
Proof.
  intros Hv. pose proof (valid_datetime_bounds dt Hv) as Hb.
  destruct dt as [y mo d h mi s us]. cbn [year month day hour minute second microsecond] in Hb.
  unfold parse_iso8601_utc, isoformat.
  cbn [year month day hour minute second microsecond].
  do 5 read_field.
  rewrite read_digits_zfill_small by (cbn; lia).
  cbn [mbind option_bind].
  destruct (Z.eqb_spec us 0) as [->|Hus].
  - rewrite append_empty. change (expect "." "+00:00") with (@None string).
    cbn [mbind option_bind].
    change (String.eqb "+00:00" "+00:00") with true. rewrite Hv. reflexivity.
  - rewrite ?append_String, ?append_empty, ?expect_String.
    rewrite read_digits_zfill_small by (cbn; lia).
    cbn [mbind option_bind].
    change (String.eqb "+00:00" "+00:00") with true. rewrite Hv. reflexivity.
Qed.

(** ** Running the monad *)

(** Unfolds the monad and the dictionary operations, leaving the lookups. *)
Ltac run :=
  cbv [mbind M_bind mret M_ret raise lift perform try_except subscript
       hass_data_getitem getitem getattr_get domain_setitem domain_pop
       logger_error print start_monitoring stop_monitoring
       async_forward_entry_setups async_unload_platforms async_fire
       device name utcnow];
  cbn [fst snd hass_data trace now emit set_hass_data].

Section Properties.
Context {K : Constants} {sdk : DoorBirdPy} {host : ConfigEntries}.

Lemma device_of_entry_Some (entry : ConfigEntry) (dev : value) :
  device_of_entry entry = Some dev →
  ∃ device_ip username password secure port,
    data entry !! CONF_HOST = Some device_ip ∧
    data entry !! CONF_USERNAME = Some username ∧
    data entry !! CONF_PASSWORD = Some password ∧
    data entry !! CONF_SSL = Some secure ∧
    data entry !! CONF_PORT = Some port ∧
    dev = DoorBird device_ip username password secure port.
Proof.
  unfold device_of_entry. intros Hd.
  destruct (data entry !! CONF_HOST) as [device_ip|]; [|discriminate].
  destruct (data entry !! CONF_USERNAME) as [username|]; [|discriminate].
  destruct (data entry !! CONF_PASSWORD) as [password|]; [|discriminate].
  destruct (data entry !! CONF_SSL) as [secure|]; [|discriminate].
  destruct (data entry !! CONF_PORT) as [port|]; [|discriminate].
  cbn in Hd. injection Hd as <-. by exists device_ip, username, password, secure, port.
Qed.

Lemma registry_Some (w : World) (reg : gmap string value) :
  registry w = Some reg ↔ hass_data w !! DOMAIN = Some (VDict reg).
Proof.
  unfold registry. split.
  - intros Hr. destruct (hass_data w !! DOMAIN) as [[]|]; congruence.
  - by intros ->.
Qed.

Lemma entity_id_index_Some (w : World) (index : gmap string value) :
  entity_id_index w = Some index →
  ∃ reg, hass_data w !! DOMAIN = Some (VDict reg) ∧
         reg !! DOOR_STATION_EVENT_ENTITY_IDS = Some (VDict index).
Proof.
  unfold entity_id_index. intros Hi.
  destruct (registry w) as [reg|] eqn:Hreg; [|discriminate].
  apply registry_Some in Hreg. exists reg. split; [done|].
  cbn in Hi. destruct (reg !! DOOR_STATION_EVENT_ENTITY_IDS) as [[]|]; congruence.
Qed.

Lemma handshake_run (dev : value) (w : World) :
  async_add_executor_job _init_doorbird_device dev w = (handshake dev w, w).
Proof.
  unfold handshake, async_add_executor_job, _init_doorbird_device. run.
  destruct (ready dev); [destruct (info dev)|]; reflexivity.
Qed.

Ltac setup_start Hdev :=
  apply device_of_entry_Some in Hdev;
  destruct Hdev as (device_ip & username & password & secure & port &
                    Hhost & Huser & Hpass & Hssl & Hport & ->);
  unfold async_setup_entry; run;
  rewrite Hhost, Huser, Hpass, Hssl, Hport; cbv beta iota;
  rewrite handshake_run.

(** C1.  When the handshake of the setup raises an HTTP error with status
    401, [async_setup_entry] returns [False] (permanent failure: it does
    not raise the retryable [ConfigEntryNotReady]) and [hass.data] is
    what it was, so no registry entry is created. *)
Theorem setup_unauthorized (entry : ConfigEntry) (w : World) (dev : value) :
  device_of_entry entry = Some dev →
  handshake dev w = Raise (HTTPError UNAUTHORIZED) →
  fst (async_setup_entry entry w) = Return false ∧
  (∀ cause, fst (async_setup_entry entry w) ≠ Raise (ConfigEntryNotReady cause)) ∧
  hass_data (snd (async_setup_entry entry w)) = hass_data w.
Proof.
  intros Hdev Hh. setup_start Hdev. rewrite Hh. cbn. done.
Qed.


(** C2, amended.  When the handshake raises a transport error
    ([OSError]), or an HTTP error whose status is not 401, or returns
    (the readiness query and the info query have both answered) a status
    whose first element is falsy, [async_setup_entry] raises
    [ConfigEntryNotReady] (retryable failure, which is not the [False] of
    permanent failure) and [hass.data] is what it was, so no registry
    entry is created. *)
Theorem setup_retryable (entry : ConfigEntry) (w : World) (dev : value) :
  device_of_entry entry = Some dev →
  (∃ msg, handshake dev w = Raise (OSError msg)) ∨
  (∃ code, code ≠ UNAUTHORIZED ∧ handshake dev w = Raise (HTTPError code)) ∨
  (∃ status inf, handshake dev w = Return (status, inf) ∧ truthy (fst status) = false) →
  (∃ cause, fst (async_setup_entry entry w) = Raise (ConfigEntryNotReady cause)) ∧
  fst (async_setup_entry entry w) ≠ Return false ∧
  hass_data (snd (async_setup_entry entry w)) = hass_data w.
Proof.
  intros Hdev Hh. setup_start Hdev.
  destruct Hh as [[msg Hh]|[(code & Hcode & Hh)|(status & inf & Hh & Hready)]];
    rewrite Hh; cbv beta iota.
  - cbn. eauto.
  - apply Z.eqb_neq in Hcode. rewrite Hcode. cbn. eauto.
  - destruct status as [flag code]. cbn [fst] in Hready. cbn [fst snd].
    rewrite Hready. cbn. eauto.
Qed.


(** C10.  Whenever the handshake does not return a ready status (it raised,
    whether a 401, another HTTP error, a transport error or anything else,
    or it reported not-ready), the setup does not return [True],
    [hass.data] is what it was, and among the effects performed there is
    no [start_monitoring] and no write to the registry. *)
Theorem failed_setup_is_atomic (entry : ConfigEntry) (w : World) (dev : value) :
  device_of_entry entry = Some dev →
  (∀ status inf, handshake dev w = Return (status, inf) → truthy (fst status) = false) →
  let w' := snd (async_setup_entry entry w) in
  fst (async_setup_entry entry w) ≠ Return true ∧
  hass_data w' = hass_data w ∧
  ∃ performed, trace w' = trace w ++ performed ∧
    Forall (λ e, is_start_monitoring e = false ∧ is_registry_write e = false) performed.
Proof.
  intros Hdev Hfail w'. subst w'. setup_start Hdev.
  destruct (handshake _ w) as [[[flag code] inf]|err] eqn:Hh; cbv beta iota.
  - specialize (Hfail _ _ eq_refl). cbn [fst] in Hfail. cbn [fst snd].
    rewrite Hfail. cbn. repeat split; [done|].
    eexists. split; [reflexivity|]. by repeat constructor.
  - destruct err as [code|msg| | | | | |]; cbn.
    + destruct (Z.eqb code UNAUTHORIZED); cbn.
      * repeat split; [done|]. eexists. split; [reflexivity|]. by repeat constructor.
      * repeat split; [done|]. exists []. split; [by rewrite app_nil_r|constructor].
    + repeat split; [done|]. eexists. split; [reflexivity|]. by repeat constructor.
    + repeat split; [done|]. exists []. split; [by rewrite app_nil_r|constructor].
    + repeat split; [done|]. exists []. split; [by rewrite app_nil_r|constructor].
    + repeat split; [done|]. exists []. split; [by rewrite app_nil_r|constructor].
    + repeat split; [done|]. exists []. split; [by rewrite app_nil_r|constructor].
    + repeat split; [done|]. exists []. split; [by rewrite app_nil_r|constructor].
    + repeat split; [done|]. exists []. split; [by rewrite app_nil_r|constructor].
Qed.


(** The run of the event callback, step by step. *)
Lemma notify_event_run (dev nm : value) (event : string) (w : World)
    (index : gmap string value) :
  entity_id_index w = Some index →
  async_notify_event (ConfiguredDoorBird dev nm) event w =
  (Return tt,
   emit (BusFire (DOMAIN +:+ "_" +:+ event)
           (<[ATTR_ENTITY_ID := get index event VNone]>
            (<["html5_viewer_url" := html5_viewer_url dev]>
             (<["rtsp_live_video_url" := rtsp_live_video_url dev]>
              (<["live_image_url" := live_image_url dev]>
               (<["live_video_url" := live_video_url dev]>
                (<["timestamp" := VStr (isoformat (now w))]> ∅)))))))
     (emit (Printed ("FIRING EVENT: " +:+ event)) w)).
Proof.
  intros Hidx. apply entity_id_index_Some in Hidx as (reg & Hreg & Hidx).
  unfold async_notify_event, get_event_data. run.
  rewrite Hreg. cbv beta iota. rewrite Hidx. reflexivity.
Qed.

(** C4.  For every event name handed to the event callback of a session,
    in a world that holds the EntityIdIndex and whose clock shows an
    existing time, exactly one event is fired on the bus; its topic is
    [DOMAIN], an underscore and the event name; its payload holds the four
    URL fields as the device client gives them at that moment, and under
    [timestamp] a string that reads back, as an ISO-8601 UTC timestamp, to
    the time of the clock. *)
Theorem notify_event_publishes (dev nm : value) (event : string) (w : World)
    (index : gmap string value) :
  entity_id_index w = Some index →
  valid_datetime (now w) = true →
  ATTR_ENTITY_ID ∉ ["timestamp"; "live_video_url"; "live_image_url";
                    "rtsp_live_video_url"; "html5_viewer_url"] →
  ∃ (payload : gmap string value) (timestamp : string),
    fst (async_notify_event (ConfiguredDoorBird dev nm) event w) = Return tt ∧
    trace (snd (async_notify_event (ConfiguredDoorBird dev nm) event w))
    = trace w ++ [Printed ("FIRING EVENT: " +:+ event);
                  BusFire (DOMAIN +:+ "_" +:+ event) payload] ∧
    payload !! "live_video_url" = Some (live_video_url dev) ∧
    payload !! "live_image_url" = Some (live_image_url dev) ∧
    payload !! "rtsp_live_video_url" = Some (rtsp_live_video_url dev) ∧
    payload !! "html5_viewer_url" = Some (html5_viewer_url dev) ∧
    payload !! "timestamp" = Some (VStr timestamp) ∧
    parse_iso8601_utc timestamp = Some (now w).
Proof.
  intros Hidx Hnow Hattr.
  rewrite (notify_event_run _ _ _ _ _ Hidx). cbn [fst snd trace emit].
  eexists _, (isoformat (now w)).
  rewrite !not_elem_of_cons in Hattr.
  destruct Hattr as (Ht & Hv & Hi & Hr & Hh & _).
  split_and!.
  - done.
  - by rewrite <- app_assoc.
  - rewrite lookup_insert_ne by done. by repeat (rewrite lookup_insert_ne by done).
  - rewrite lookup_insert_ne by done. by repeat (rewrite lookup_insert_ne by done).
  - rewrite lookup_insert_ne by done. by repeat (rewrite lookup_insert_ne by done).
  - rewrite lookup_insert_ne by done. by rewrite lookup_insert_eq.
  - rewrite lookup_insert_ne by done. by repeat (rewrite lookup_insert_ne by done).
  - by apply parse_isoformat.
Qed.

(** C5, amended.  The payload of the published event always holds the
    entity-id field: its value is the one the EntityIdIndex maps the event
    name to, and [None] when the event name has no mapping. *)
Theorem notify_event_entity_id (dev nm : value) (event : string) (w : World)
    (index : gmap string value) :
  entity_id_index w = Some index →
  ∃ payload : gmap string value,
    trace (snd (async_notify_event (ConfiguredDoorBird dev nm) event w))
    = trace w ++ [Printed ("FIRING EVENT: " +:+ event);
                  BusFire (DOMAIN +:+ "_" +:+ event) payload] ∧
    payload !! ATTR_ENTITY_ID
    = Some (match index !! event with
            | Some entity_id => entity_id
            | None => VNone
            end).
Proof.
  intros Hidx. rewrite (notify_event_run _ _ _ _ _ Hidx). cbn [fst snd trace emit].
  eexists. split.
  - by rewrite <- app_assoc.
  - by rewrite lookup_insert_eq.
Qed.


(** C7, amended.  Unloading an entry id that has no entry in the registry
    changes nothing (the world, hence the registry, is what it was; no
    monitor is stopped and no platform unload is requested), and it
    raises [KeyError] for that id. *)
Theorem unload_without_entry (entry : ConfigEntry) (w : World)
    (reg : gmap string value) :
  registry w = Some reg →
  reg !! entry_id entry = None →
  async_unload_entry entry w = (Raise (KeyError (entry_id entry)), w).
Proof.
  intros Hreg Hnone. apply registry_Some in Hreg.
  unfold async_unload_entry. run. rewrite Hreg. cbv beta iota.
  by rewrite Hnone.
Qed.

(** C8.  Unloading a registered entry stops the monitor of its session
    first, then delegates the platform unload, and pops the registry
    entry last and only when the delegation reported success: the result
    is the delegation's answer, the registry loses the entry exactly when
    that answer is true, and [hass.data] is untouched when it is false. *)
Theorem unload_stops_monitor_then_removes (entry : ConfigEntry) (w : World)
    (reg registry_entry : gmap string value) (dev nm : value) :
  registry w = Some reg →
  reg !! entry_id entry = Some (VDict registry_entry) →
  registry_entry !! DOOR_STATION = Some (ConfiguredDoorBird dev nm) →
  let unload_ok := unload_platforms_ok (entry_id entry) PLATFORMS in
  let w' := snd (async_unload_entry entry w) in
  fst (async_unload_entry entry w) = Return unload_ok ∧
  trace w' = trace w ++ [StopMonitoring dev; UnloadPlatforms (entry_id entry) PLATFORMS]
                     ++ (if unload_ok then [Pop (entry_id entry)] else []) ∧
  registry w' = Some (if unload_ok then delete (entry_id entry) reg else reg) ∧
  (unload_ok = false → hass_data w' = hass_data w).
Proof.
  intros Hreg Hentry Hsession unload_ok w'. apply registry_Some in Hreg.
  subst w' unload_ok. unfold async_unload_entry. run.
  rewrite Hreg. cbv beta iota. rewrite Hentry. cbv beta iota.
  rewrite Hsession. cbv beta iota.
  destruct (unload_platforms_ok (entry_id entry) PLATFORMS).
  - cbn [hass_data emit trace]. rewrite Hreg. cbv beta iota. rewrite Hentry.
    cbn [fst snd hass_data emit trace set_hass_data]. split_and!.
    + done.
    + by rewrite <- !app_assoc.
    + unfold registry. cbn [hass_data emit set_hass_data]. by rewrite lookup_insert_eq.
    + done.
  - cbn [fst snd hass_data emit trace]. split_and!.
    + done.
    + by rewrite <- !app_assoc.
    + by apply registry_Some.
    + done.
Qed.

(** C9.  On an info mapping that has at least one of the two MAC keys,
    [get_mac_address_from_doorstation_info] returns the value under
    [PRIMARY_MAC_ADDR] when that key is present, and the value under
    [WIFI_MAC_ADDR] otherwise. *)
Theorem mac_address_prefers_primary (doorstation_info : gmap string value) (w : World) :
  "PRIMARY_MAC_ADDR" ∈ dom doorstation_info ∨ "WIFI_MAC_ADDR" ∈ dom doorstation_info →
  ∃ mac,
    util.get_mac_address_from_doorstation_info doorstation_info w = (Return mac, w) ∧
    match doorstation_info !! "PRIMARY_MAC_ADDR" with
    | Some primary => mac = primary
    | None => doorstation_info !! "WIFI_MAC_ADDR" = Some mac
    end.
Proof.
  intros Hkeys. unfold util.get_mac_address_from_doorstation_info. run.
  case_bool_decide as Hprimary.
  - apply elem_of_dom in Hprimary as [primary Hprimary]. rewrite Hprimary. eauto.
  - destruct Hkeys as [Hp|Hwifi]; [done|].
    apply not_elem_of_dom in Hprimary. rewrite Hprimary.
    apply elem_of_dom in Hwifi as [mac Hwifi]. rewrite Hwifi. eauto.
Qed.

(** [split("_", 1)] cuts at the first underscore. *)
Lemma split_1_domain_kind (d kind : string) :
  occurs "_" d = false →
  logbook.split_1 "_" (d +:+ "_" +:+ kind) = [d; kind].
Proof.
  induction d as [|c d IH]; intros Hd.
  - reflexivity.
  - cbn [occurs] in Hd. apply orb_false_iff in Hd as [Hc Hd].
    rewrite append_String. cbn [logbook.split_1]. rewrite Hc.
    by rewrite (IH Hd).
Qed.


(** ** Further properties of [__init__.py] *)

(** X1.  [async_setup] returns [True] and only makes sure the registry
    key is there: an existing value under [DOMAIN] is kept, a missing one
    becomes the empty dictionary, nothing else changes, and running it
    again changes nothing. *)
Theorem async_setup_setdefault (w : World) :
  fst (async_setup w) = Return true ∧
  hass_data (snd (async_setup w))
  = <[DOMAIN := default (VDict ∅) (hass_data w !! DOMAIN)]> (hass_data w) ∧
  trace (snd (async_setup w)) = trace w ∧
  async_setup (snd (async_setup w)) = (Return true, snd (async_setup w)).
Proof.
  unfold async_setup.
  destruct (hass_data w !! DOMAIN) as [v|] eqn:Hd; cbn [fst snd default].
  - rewrite Hd. split_and!; try done. by rewrite insert_id.
  - cbn [hass_data set_hass_data trace]. rewrite lookup_insert_eq. done.
Qed.

(** X2.  When the entry data lacks one of the five keys the setup
    subscripts, the setup raises [KeyError] for a missing key and the
    world is what it was: no handshake result is used, nothing is logged,
    no monitor is started. *)
Theorem setup_missing_config_key (entry : ConfigEntry) (w : World) :
  device_of_entry entry = None →
  ∃ key, key ∈ [CONF_HOST; CONF_USERNAME; CONF_PASSWORD; CONF_SSL; CONF_PORT] ∧
         data entry !! key = None ∧
         async_setup_entry entry w = (Raise (KeyError key), w).
Proof.
  unfold device_of_entry, async_setup_entry. run. intros Hnone.
  destruct (data entry !! CONF_HOST) as [device_ip|] eqn:Hhost;
    [|exists CONF_HOST; split_and!; [rewrite !elem_of_cons; tauto|done|done]].
  destruct (data entry !! CONF_USERNAME) as [username|] eqn:Huser;
    [|exists CONF_USERNAME; split_and!; [rewrite !elem_of_cons; tauto|done|done]].
  destruct (data entry !! CONF_PASSWORD) as [password|] eqn:Hpass;
    [|exists CONF_PASSWORD; split_and!; [rewrite !elem_of_cons; tauto|done|done]].
  destruct (data entry !! CONF_SSL) as [secure|] eqn:Hssl;
    [|exists CONF_SSL; split_and!; [rewrite !elem_of_cons; tauto|done|done]].
  destruct (data entry !! CONF_PORT) as [port|] eqn:Hport;
    [|exists CONF_PORT; split_and!; [rewrite !elem_of_cons; tauto|done|done]].
  discriminate Hnone.
Qed.

(** X3.  An exception of the handshake that is neither an [HTTPError] nor
    an [OSError] is not caught: the setup raises that very exception, and
    the world is what it was (nothing is logged). *)
Theorem setup_propagates_other_exception (entry : ConfigEntry) (w : World)
    (dev : value) (err : exception) :
  device_of_entry entry = Some dev →
  handshake dev w = Raise err →
  (∀ status_code, err ≠ HTTPError status_code) →
  (∀ msg, err ≠ OSError msg) →
  async_setup_entry entry w = (Raise err, w).
Proof.
  intros Hdev Hh Hhttp Hos. setup_start Hdev. rewrite Hh. cbv beta iota.
  destruct err as [code|msg| | | | | |]; try reflexivity.
  - by destruct (Hhttp code).
  - by destruct (Hos msg).
Qed.

(** X4.  The handshake runs the readiness query first and the info query
    second, whatever the first one answered.  So a device that reports
    not-ready while its info query is rejected with status 401 is a
    permanent failure ([False]), not a retryable one. *)
Theorem not_ready_with_unauthorized_info_is_permanent (entry : ConfigEntry)
    (w : World) (dev : value) (status : value * value) :
  device_of_entry entry = Some dev →
  ready dev = Return status →
  info dev = Raise (HTTPError UNAUTHORIZED) →
  fst (async_setup_entry entry w) = Return false ∧
  hass_data (snd (async_setup_entry entry w)) = hass_data w.
Proof.
  intros Hdev Hready Hinfo.
  assert (Hh : handshake dev w = Raise (HTTPError UNAUTHORIZED)).
  { unfold handshake, async_add_executor_job, _init_doorbird_device. run.
    by rewrite Hready, Hinfo. }
  setup_start Hdev. rewrite Hh. cbn. done.
Qed.

(** When the readiness query raises, the info query does not matter: the
    handshake raises the exception of the readiness query. *)
Lemma handshake_ready_raises_first (dev : value) (w : World) (err : exception) :
  ready dev = Raise err →
  handshake dev w = Raise err.
Proof.
  intros Hready.
  unfold handshake, async_add_executor_job, _init_doorbird_device. run.
  by rewrite Hready.
Qed.

(** X5.  When the handshake reports ready but [hass.data] has no
    [DOMAIN] key ([async_setup] has not run), the setup raises [KeyError]
    for [DOMAIN] after it has started the monitor: the callbacks are
    registered, [hass.data] is what it was, and nothing else was done. *)
Theorem setup_without_registry_starts_monitor (entry : ConfigEntry) (w : World)
    (dev : value) (status : value * value) (inf : value) :
  device_of_entry entry = Some dev →
  handshake dev w = Return (status, inf) →
  truthy (fst status) = true →
  hass_data w !! DOMAIN = None →
  fst (async_setup_entry entry w) = Raise (KeyError DOMAIN) ∧
  hass_data (snd (async_setup_entry entry w)) = hass_data w ∧
  trace (snd (async_setup_entry entry w))
  = trace w ++ [StartMonitoring dev
                  (ConfiguredDoorBird dev (get (data entry) CONF_NAME VNone))
                  (entry_id entry)].
Proof.
  intros Hdev Hh Hready Hnone. setup_start Hdev. rewrite Hh. cbv beta iota.
  destruct status as [flag code]. cbn [fst] in Hready. cbn [fst snd].
  rewrite Hready. cbn [negb]. cbv beta iota. cbn [hass_data emit trace].
  rewrite Hnone. done.
Qed.



(** The run of a setup whose handshake reports ready, with the registry in
    place. *)
Lemma setup_ready_run (entry : ConfigEntry) (w : World) (dev : value)
    (status : value * value) (inf : value) (reg : gmap string value) :
  device_of_entry entry = Some dev →
  handshake dev w = Return (status, inf) →
  truthy (fst status) = true →
  hass_data w !! DOMAIN = Some (VDict reg) →
  let doorstation := ConfiguredDoorBird dev (get (data entry) CONF_NAME VNone) in
  let registry_entry :=
    VDict (<[DOOR_STATION_INFO := inf]> (<[DOOR_STATION := doorstation]> ∅)) in
  async_setup_entry entry w
  = (Return true,
     emit (ForwardEntrySetups (entry_id entry) PLATFORMS)
       (emit (SetItem (entry_id entry) registry_entry)
          (set_hass_data
             (<[DOMAIN := VDict (<[entry_id entry := registry_entry]> reg)]> (hass_data w))
             (emit (StartMonitoring dev doorstation (entry_id entry)) w)))).
Proof.
  intros Hdev Hh Hready Hreg. setup_start Hdev. rewrite Hh. cbv beta iota.
  destruct status as [flag code]. cbn [fst] in Hready. cbn [fst snd].
  rewrite Hready. cbn [negb]. cbv beta iota. cbn [hass_data emit trace].
  by rewrite Hreg.
Qed.

(** The run of the unload of a registered entry. *)
Lemma unload_run (entry : ConfigEntry) (w : World)
    (reg registry_entry : gmap string value) (dev nm : value) :
  hass_data w !! DOMAIN = Some (VDict reg) →
  reg !! entry_id entry = Some (VDict registry_entry) →
  registry_entry !! DOOR_STATION = Some (ConfiguredDoorBird dev nm) →
  let stopped :=
    emit (UnloadPlatforms (entry_id entry) PLATFORMS) (emit (StopMonitoring dev) w) in
  async_unload_entry entry w
  = if unload_platforms_ok (entry_id entry) PLATFORMS
    then (Return true,
          emit (Pop (entry_id entry))
            (set_hass_data
               (<[DOMAIN := VDict (delete (entry_id entry) reg)]> (hass_data w)) stopped))
    else (Return false, stopped).
Proof.
  intros Hreg Hentry Hsession. unfold async_unload_entry. run.
  rewrite Hreg. cbv beta iota. rewrite Hentry. cbv beta iota.
  rewrite Hsession. cbv beta iota.
  destruct (unload_platforms_ok (entry_id entry) PLATFORMS); [|done].
  cbn [hass_data emit trace]. rewrite Hreg. cbv beta iota. by rewrite Hentry.
Qed.

(** X9.  Unload is not idempotent: after an unload that removed the
    entry, a second unload of the same entry raises [KeyError] for the
    entry id and changes nothing (no monitor is stopped again). *)
Theorem unload_twice_raises (entry : ConfigEntry) (w : World)
    (reg registry_entry : gmap string value) (dev nm : value) :
  registry w = Some reg →
  reg !! entry_id entry = Some (VDict registry_entry) →
  registry_entry !! DOOR_STATION = Some (ConfiguredDoorBird dev nm) →
  unload_platforms_ok (entry_id entry) PLATFORMS = true →
  let unloaded := snd (async_unload_entry entry w) in
  async_unload_entry entry unloaded = (Raise (KeyError (entry_id entry)), unloaded).
Proof.
  intros Hreg Hentry Hsession Hok unloaded. apply registry_Some in Hreg.
  subst unloaded. rewrite (unload_run _ _ _ _ _ _ Hreg Hentry Hsession), Hok. cbn [snd].
  unfold async_unload_entry. run. rewrite lookup_insert_eq. cbv beta iota.
  by rewrite lookup_delete_eq.
Qed.

(** X10.  When the platform unload fails, the entry stays registered with
    its session, so the unload can be asked again: the second attempt
    finds the same session and stops the same monitor again. *)
Theorem unload_failure_keeps_session (entry : ConfigEntry) (w : World)
    (reg registry_entry : gmap string value) (dev nm : value) :
  registry w = Some reg →
  reg !! entry_id entry = Some (VDict registry_entry) →
  registry_entry !! DOOR_STATION = Some (ConfiguredDoorBird dev nm) →
  unload_platforms_ok (entry_id entry) PLATFORMS = false →
  let failed := snd (async_unload_entry entry w) in
  fst (async_unload_entry entry w) = Return false ∧
  registry failed = Some reg ∧
  trace (snd (async_unload_entry entry failed))
  = trace failed ++ [StopMonitoring dev; UnloadPlatforms (entry_id entry) PLATFORMS].
Proof.
  intros Hreg Hentry Hsession Hok failed. apply registry_Some in Hreg.
  subst failed. rewrite (unload_run _ _ _ _ _ _ Hreg Hentry Hsession), Hok.
  cbn [fst snd]. split_and!.
  - done.
  - by apply registry_Some.
  - erewrite unload_run; [|exact Hreg|exact Hentry|exact Hsession].
    rewrite Hok. cbn [snd trace emit]. by rewrite <- !app_assoc.
Qed.

(** ** Further properties of the event callback *)

(** X12.  The event callback never writes to [hass.data] and never
    touches the clock, whatever session and event name it is given and
    whether it returns or raises. *)
Theorem notify_event_never_writes (doorstation : value) (event : string) (w : World) :
  hass_data (snd (async_notify_event doorstation event w)) = hass_data w ∧
  now (snd (async_notify_event doorstation event w)) = now w.
Proof.
  unfold async_notify_event, get_event_data.
  destruct doorstation as [| | | | | | |dev nm]; run; try done.
  destruct (hass_data w !! DOMAIN) as [registry_value|]; [|done].
  destruct registry_value as [| | | | |reg| |]; try done. cbv beta iota.
  destruct (reg !! DOOR_STATION_EVENT_ENTITY_IDS) as [index_value|]; [|done].
  destruct index_value; done.
Qed.

(** X13.  A callback that raises has published nothing: the only effect
    it performed is its [print]. *)
Theorem notify_event_raise_publishes_nothing (doorstation : value) (event : string)
    (w : World) (err : exception) :
  fst (async_notify_event doorstation event w) = Raise err →
  trace (snd (async_notify_event doorstation event w))
  = trace w ++ [Printed ("FIRING EVENT: " +:+ event)].
Proof.
  unfold async_notify_event, get_event_data.
  destruct doorstation as [| | | | | | |dev nm]; run; try done.
  destruct (hass_data w !! DOMAIN) as [registry_value|]; [|done].
  destruct registry_value as [| | | | |reg| |]; try done. cbv beta iota.
  destruct (reg !! DOOR_STATION_EVENT_ENTITY_IDS) as [index_value|]; [|done].
  destruct index_value; done.
Qed.

(** X14.  While no platform has created the EntityIdIndex, an event is
    dropped: the callback raises [KeyError] for the key of the index and
    nothing is fired on the bus. *)
Theorem notify_event_without_index (dev nm : value) (event : string) (w : World)
    (reg : gmap string value) :
  registry w = Some reg →
  reg !! DOOR_STATION_EVENT_ENTITY_IDS = None →
  async_notify_event (ConfiguredDoorBird dev nm) event w
  = (Raise (KeyError DOOR_STATION_EVENT_ENTITY_IDS),
     emit (Printed ("FIRING EVENT: " +:+ event)) w).
Proof.
  intros Hreg Hnone. apply registry_Some in Hreg.
  unfold async_notify_event, get_event_data. run.
  rewrite Hreg. cbv beta iota. by rewrite Hnone.
Qed.

(** X15.  The payload of the published event has exactly six fields: the
    entity id, the timestamp and the four URLs. *)
Theorem notify_event_payload_fields (dev nm : value) (event : string) (w : World)
    (index : gmap string value) :
  entity_id_index w = Some index →
  ∃ payload : gmap string value,
    trace (snd (async_notify_event (ConfiguredDoorBird dev nm) event w))
    = trace w ++ [Printed ("FIRING EVENT: " +:+ event);
                  BusFire (DOMAIN +:+ "_" +:+ event) payload] ∧
    ∀ key, key ∈ dom payload ↔
           key ∈ [ATTR_ENTITY_ID; "timestamp"; "live_video_url"; "live_image_url";
                  "rtsp_live_video_url"; "html5_viewer_url"].
Proof.
  intros Hidx. rewrite (notify_event_run _ _ _ _ _ Hidx). cbn [fst snd trace emit].
  eexists. split; [by rewrite <- app_assoc|].
  intros key. rewrite !dom_insert_L, dom_empty_L.
  rewrite !elem_of_union, !elem_of_singleton, !elem_of_cons, elem_of_empty, elem_of_nil.
  tauto.
Qed.

(** ** Further properties of [logbook.py] *)

(** X16.  [split(sep, 1)] cuts at the first separator and loses nothing:
    either the string has no separator and is returned whole, or it is
    the first part, the separator and the second part, and the first part
    has no separator. *)
Theorem split_1_cuts_at_first (sep : ascii) (s : string) :
  (occurs sep s = false ∧ logbook.split_1 sep s = [s]) ∨
  (∃ head tail, occurs sep head = false ∧
                s = head +:+ String sep tail ∧
                logbook.split_1 sep s = [head; tail]).
Proof.
  induction s as [|c s IH].
  - by left.
  - cbn [logbook.split_1 occurs].
    destruct (Ascii.eqb c sep) eqn:Hc.
    + apply Ascii.eqb_eq in Hc as ->. right. by exists "", s.
    + destruct IH as [[Hno ->]|(head & tail & Hno & -> & ->)].
      * left. by rewrite Hno.
      * right. exists (String c head), tail. cbn [occurs]. by rewrite Hc, Hno.
Qed.

(** The separator occurs in a string that was joined with it. *)
Lemma occurs_separator (sep : ascii) (head tail : string) :
  occurs sep (head +:+ String sep tail) = true.
Proof.
  induction head as [|c head IH].
  - rewrite append_empty. cbn [occurs]. by rewrite Ascii.eqb_refl.
  - rewrite append_String. cbn [occurs]. rewrite IH. apply orb_true_r.
Qed.

(** X17.  An event whose type has no underscore cannot be described: the
    describer raises [IndexError], and the world is what it was. *)
Theorem describe_without_underscore_raises (event : logbook.Event) (w : World) :
  occurs "_" (logbook.event_type event) = false →
  logbook.async_describe_logbook_event event w = (Raise IndexError, w).
Proof.
  intros Hno.
  destruct (split_1_cuts_at_first "_" (logbook.event_type event))
    as [[_ Hsplit]|(head & tail & _ & Heq & _)].
  - unfold logbook.async_describe_logbook_event, logbook.list_getitem. run.
    by rewrite Hsplit.
  - rewrite Heq, occurs_separator in Hno. discriminate Hno.
Qed.

(** X18.  The describer is free of side effects: whatever event it is
    given, and whether it returns or raises, the world is what it was. *)
Theorem describe_is_pure (event : logbook.Event) (w : World) :
  snd (logbook.async_describe_logbook_event event w) = w.
Proof.
  unfold logbook.async_describe_logbook_event, logbook.list_getitem. run.
  destruct (logbook.split_1 "_" (logbook.event_type event) !! 1); [|done].
  cbv beta iota.
  destruct (hass_data w !! DOMAIN) as [registry_value|]; [|done].
  destruct registry_value as [| | | | |reg| |]; try done. cbv beta iota.
  destruct (reg !! DOOR_STATION_EVENT_ENTITY_IDS) as [index_value|]; [|done].
  destruct index_value; done.
Qed.

(** X19.  Besides the entity id, the description names the integration
    and tells which event was fired, and it has no other field, provided
    the three logbook keys are distinct. *)
Theorem describe_name_and_message (d kind : string) (payload : gmap string value)
    (w : World) (index : gmap string value) :
  occurs "_" d = false →
  entity_id_index w = Some index →
  LOGBOOK_ENTRY_NAME ≠ LOGBOOK_ENTRY_MESSAGE →
  LOGBOOK_ENTRY_NAME ≠ LOGBOOK_ENTRY_ENTITY_ID →
  LOGBOOK_ENTRY_MESSAGE ≠ LOGBOOK_ENTRY_ENTITY_ID →
  let event := {| logbook.event_type := d +:+ "_" +:+ kind; logbook.data := payload |} in
  ∃ description : gmap string value,
    logbook.async_describe_logbook_event event w = (Return description, w) ∧
    description !! LOGBOOK_ENTRY_NAME = Some (VStr "Doorbird") ∧
    description !! LOGBOOK_ENTRY_MESSAGE
    = Some (VStr ("Event " +:+ (d +:+ "_" +:+ kind) +:+ " was fired")) ∧
    ∀ key, key ∈ dom description ↔
           key ∈ [LOGBOOK_ENTRY_NAME; LOGBOOK_ENTRY_MESSAGE; LOGBOOK_ENTRY_ENTITY_ID].
Proof.
  intros Hd Hidx Hnm Hne Hme event. subst event.
  apply entity_id_index_Some in Hidx as (reg & Hreg & Hidx).
  unfold logbook.async_describe_logbook_event, logbook.list_getitem. run.
  cbn [logbook.event_type logbook.data].
  rewrite (split_1_domain_kind _ _ Hd). cbn [lookup list_lookup]. cbv beta iota.
  rewrite Hreg. cbv beta iota. rewrite Hidx. cbv beta iota.
  eexists. split; [reflexivity|]. split_and!.
  - rewrite !lookup_insert_ne by done. apply lookup_insert_eq.
  - rewrite lookup_insert_ne by done. apply lookup_insert_eq.
  - intros key. rewrite !dom_insert_L, dom_empty_L.
    rewrite !elem_of_union, !elem_of_singleton, !elem_of_cons, elem_of_empty, elem_of_nil.
    tauto.
Qed.

(** X20.  The bridge and the describer agree: when [DOMAIN] has no
    underscore, describing the event that the callback has just published
    succeeds and names the entity id that the payload carries. *)
Theorem notify_then_describe_agree (dev nm : value) (event : string) (w : World)
    (index : gmap string value) :
  occurs "_" DOMAIN = false →
  entity_id_index w = Some index →
  let published := snd (async_notify_event (ConfiguredDoorBird dev nm) event w) in
  ∃ (payload description : gmap string value),
    trace published
    = trace w ++ [Printed ("FIRING EVENT: " +:+ event);
                  BusFire (DOMAIN +:+ "_" +:+ event) payload] ∧
    logbook.async_describe_logbook_event
      {| logbook.event_type := DOMAIN +:+ "_" +:+ event; logbook.data := payload |}
      published
    = (Return description, published) ∧
    description !! LOGBOOK_ENTRY_ENTITY_ID = payload !! ATTR_ENTITY_ID.
Proof.
  intros Hd Hidx published. subst published.
  rewrite (notify_event_run _ _ _ _ _ Hidx). cbn [fst snd trace emit].
  apply entity_id_index_Some in Hidx as (reg & Hreg & Hidx).
  eexists _, _. split; [by rewrite <- app_assoc|].
  unfold logbook.async_describe_logbook_event, logbook.list_getitem. run.
  cbn [logbook.event_type logbook.data].
  rewrite (split_1_domain_kind _ _ Hd). cbn [lookup list_lookup]. cbv beta iota.
  cbn [hass_data emit]. rewrite Hreg. cbv beta iota. rewrite Hidx. cbv beta iota.
  split; [reflexivity|].
  rewrite !lookup_insert_eq. f_equal. unfold get at 1 2.
  rewrite lookup_insert_eq. unfold get. by destruct (index !! event).
Qed.

(** ** Further properties of [util.py] *)

(** X21.  On an info mapping that has neither MAC key the function
    raises [KeyError], and the key it names is the wireless one. *)
Theorem mac_address_missing_both_raises (doorstation_info : gmap string value)
    (w : World) :
  "PRIMARY_MAC_ADDR" ∉ dom doorstation_info →
  "WIFI_MAC_ADDR" ∉ dom doorstation_info →
  util.get_mac_address_from_doorstation_info doorstation_info w
  = (Raise (KeyError "WIFI_MAC_ADDR"), w).
Proof.
  intros Hprimary Hwifi. unfold util.get_mac_address_from_doorstation_info. run.
  rewrite bool_decide_eq_false_2 by done.
  apply not_elem_of_dom in Hwifi. by rewrite Hwifi.
Qed.

(** The comprehension over a list of dictionaries: it returns, changes
    nothing, and picks the [DOOR_STATION] value of each dictionary that
    has one. *)
Lemma door_stations_of_dicts (entries : list value) (w : World) :
  Forall (λ entry, ∃ d, entry = VDict d) entries →
  ∃ doorstations,
    util.door_stations entries w = (Return doorstations, w) ∧
    ∀ doorstation,
      doorstation ∈ doorstations ↔
      ∃ d, VDict d ∈ entries ∧ d !! DOOR_STATION = Some doorstation.
Proof.
  induction 1 as [|entry rest [d ->] _ (doorstations & Hrun & Hmem)].
  - exists []. split; [done|]. intros doorstation. split.
    + intros Hin. by apply elem_of_nil in Hin.
    + intros (d & Hin & _). by apply elem_of_nil in Hin.
  - cbn [util.door_stations util.contains]. run.
    case_bool_decide as Hkey.
    + apply elem_of_dom in Hkey as [found Hfound]. rewrite Hfound. cbv beta iota.
      rewrite Hrun. exists (found :: doorstations). split; [done|].
      intros doorstation. rewrite elem_of_cons, Hmem. split.
      * intros [->|(d' & Hin & Hd')].
        -- exists d. split; [apply elem_of_cons; by left|done].
        -- exists d'. split; [apply elem_of_cons; by right|done].
      * intros (d' & Hin & Hd'). apply elem_of_cons in Hin as [Heq|Hin].
        -- injection Heq as ->. left. congruence.
        -- right. by exists d'.
    + apply not_elem_of_dom in Hkey. rewrite Hrun.
      exists doorstations. split; [done|].
      intros doorstation. rewrite Hmem. split.
      * intros (d' & Hin & Hd'). exists d'. split; [apply elem_of_cons; by right|done].
      * intros (d' & Hin & Hd'). apply elem_of_cons in Hin as [Heq|Hin].
        -- injection Heq as ->. congruence.
        -- by exists d'.
Qed.

(** X22.  When every value of the registry is a dictionary,
    [get_all_doorstations] returns, changes nothing, and answers exactly
    the [DOOR_STATION] values of the registry values that have that key:
    a registry value without the key, such as the EntityIdIndex, is
    skipped and is no error. *)
Theorem all_doorstations_members (w : World) (reg : gmap string value) :
  registry w = Some reg →
  (∀ key v, reg !! key = Some v → ∃ d, v = VDict d) →
  ∃ doorstations,
    util.get_all_doorstations w = (Return doorstations, w) ∧
    ∀ doorstation,
      doorstation ∈ doorstations ↔
      ∃ key d, reg !! key = Some (VDict d) ∧ d !! DOOR_STATION = Some doorstation.
Proof.
  intros Hreg Hdicts. apply registry_Some in Hreg.
  unfold util.get_all_doorstations. run. rewrite Hreg. cbv beta iota.
  destruct (door_stations_of_dicts (snd <$> map_to_list reg) w)
    as (doorstations & Hrun & Hmem).
  { apply Forall_forall. intros v Hv.
    apply list_elem_of_fmap in Hv as ([key v'] & -> & Hv).
    apply elem_of_map_to_list in Hv. by apply (Hdicts key). }
  exists doorstations. split; [done|].
  intros doorstation. rewrite Hmem. split.
  - intros (d & Hin & Hd).
    apply list_elem_of_fmap in Hin as ([key v'] & Heq & Hin). cbn in Heq. subst v'.
    apply elem_of_map_to_list in Hin. by exists key, d.
  - intros (key & d & Hkey & Hd). exists d. split; [|done].
    apply list_elem_of_fmap. exists (key, VDict d). split; [done|].
    by apply elem_of_map_to_list.
Qed.

(** X23.  The session that a successful setup registers is found by
    [get_all_doorstations] afterwards (the registry holding dictionaries
    only, and [DOOR_STATION] and [DOOR_STATION_INFO] being distinct). *)
Theorem setup_session_is_listed (entry : ConfigEntry) (w : World) (dev : value)
    (status : value * value) (inf : value) (reg : gmap string value) :
  device_of_entry entry = Some dev →
  handshake dev w = Return (status, inf) →
  truthy (fst status) = true →
  registry w = Some reg →
  (∀ key v, reg !! key = Some v → ∃ d, v = VDict d) →
  DOOR_STATION ≠ DOOR_STATION_INFO →
  let set_up := snd (async_setup_entry entry w) in
  ∃ doorstations,
    util.get_all_doorstations set_up = (Return doorstations, set_up) ∧
    ConfiguredDoorBird dev (get (data entry) CONF_NAME VNone) ∈ doorstations.
Proof.
  intros Hdev Hh Hready Hreg Hdicts Hne set_up.
  pose proof Hreg as Hreg'. apply registry_Some in Hreg'.
  set (doorstation := ConfiguredDoorBird dev (get (data entry) CONF_NAME VNone)).
  set (registry_entry :=
         <[DOOR_STATION_INFO := inf]> (<[DOOR_STATION := doorstation]> (∅ : gmap string value))).
  assert (Hset : registry set_up = Some (<[entry_id entry := VDict registry_entry]> reg)).
  { subst set_up. rewrite (setup_ready_run _ _ _ _ _ _ Hdev Hh Hready Hreg'). cbn [snd].
    unfold registry. cbn [hass_data emit set_hass_data]. by rewrite lookup_insert_eq. }
  destruct (all_doorstations_members set_up _ Hset) as (doorstations & Hrun & Hmem).
  { intros key v Hkey. destruct (decide (entry_id entry = key)) as [<-|Hother].
    - rewrite lookup_insert_eq in Hkey. injection Hkey as <-. by eexists.
    - rewrite lookup_insert_ne in Hkey by done. by apply (Hdicts key). }
  exists doorstations. split; [done|].
  apply Hmem. exists (entry_id entry), registry_entry. split.
  - apply lookup_insert_eq.
  - subst registry_entry. rewrite lookup_insert_ne by done. apply lookup_insert_eq.
Qed.

End Properties.

(** ** The theorems on the concrete installation *)

Section Installation.
#[local] Existing Instance fixture.constants.
#[local] Existing Instance fixture.sdk.
#[local] Existing Instance fixture.host.

(** The device at [10.0.0.2] rejects the credentials: the setup returns
    [False] and leaves [hass.data] alone. *)
Lemma setup_unauthorized_witness :
  let run := async_setup_entry (fixture.entry_for "e2" "10.0.0.2") fixture.started in
  fst run = Return false ∧
  (∀ cause, fst run ≠ Raise (ConfigEntryNotReady cause)) ∧
  hass_data (snd run) = hass_data fixture.started.
Proof.
  apply (setup_unauthorized (fixture.entry_for "e2" "10.0.0.2") fixture.started
           (fixture.device_at "10.0.0.2")); reflexivity.
Defined.

(** A refused connection, a server error and a device that is not ready:
    each time the setup raises [ConfigEntryNotReady]. *)
Lemma setup_retryable_witness :
  (let run := async_setup_entry (fixture.entry_for "e3" "10.0.0.3") fixture.started in
   (∃ cause, fst run = Raise (ConfigEntryNotReady cause)) ∧
   fst run ≠ Return false ∧
   hass_data (snd run) = hass_data fixture.started) ∧
  (let run := async_setup_entry (fixture.entry_for "e4" "10.0.0.4") fixture.started in
   (∃ cause, fst run = Raise (ConfigEntryNotReady cause)) ∧
   fst run ≠ Return false ∧
   hass_data (snd run) = hass_data fixture.started) ∧
  (let run := async_setup_entry (fixture.entry_for "e5" "10.0.0.5") fixture.started in
   (∃ cause, fst run = Raise (ConfigEntryNotReady cause)) ∧
   fst run ≠ Return false ∧
   hass_data (snd run) = hass_data fixture.started).
Proof.
  split; [|split].
  - apply (setup_retryable (fixture.entry_for "e3" "10.0.0.3") fixture.started
             (fixture.device_at "10.0.0.3")); [reflexivity|].
    left. exists "Connection refused". reflexivity.
  - apply (setup_retryable (fixture.entry_for "e4" "10.0.0.4") fixture.started
             (fixture.device_at "10.0.0.4")); [reflexivity|].
    right; left. exists 500%Z. split; [discriminate|reflexivity].
  - apply (setup_retryable (fixture.entry_for "e5" "10.0.0.5") fixture.started
             (fixture.device_at "10.0.0.5")); [reflexivity|].
    right; right. exists (VBool false, VInt 503), fixture.device_info.
    split; reflexivity.
Defined.


(** Neither the device that rejects the credentials nor the one that is
    not ready gets its monitor started. *)
Lemma failed_setup_is_atomic_witness :
  (let run := async_setup_entry (fixture.entry_for "e2" "10.0.0.2") fixture.started in
   fst run ≠ Return true ∧
   hass_data (snd run) = hass_data fixture.started ∧
   ∃ performed, trace (snd run) = trace fixture.started ++ performed ∧
     Forall (λ e, is_start_monitoring e = false ∧ is_registry_write e = false) performed) ∧
  (let run := async_setup_entry (fixture.entry_for "e5" "10.0.0.5") fixture.started in
   fst run ≠ Return true ∧
   hass_data (snd run) = hass_data fixture.started ∧
   ∃ performed, trace (snd run) = trace fixture.started ++ performed ∧
     Forall (λ e, is_start_monitoring e = false ∧ is_registry_write e = false) performed).
Proof.
  split.
  - apply (failed_setup_is_atomic (fixture.entry_for "e2" "10.0.0.2") fixture.started
             (fixture.device_at "10.0.0.2")); [reflexivity|].
    intros status inf Hh. vm_compute in Hh. discriminate Hh.
  - apply (failed_setup_is_atomic (fixture.entry_for "e5" "10.0.0.5") fixture.started
             (fixture.device_at "10.0.0.5")); [reflexivity|].
    intros status inf Hh. vm_compute in Hh. injection Hh as <- _. reflexivity.
Defined.

(** The doorbell event of a working device, in a world where a platform
    has registered its entity. *)
Lemma notify_event_publishes_witness :
  let run := async_notify_event (fixture.session_at "10.0.0.1") "doorbell" fixture.indexed in
  ∃ (payload : gmap string value) (timestamp : string),
    fst run = Return tt ∧
    trace (snd run)
    = trace fixture.indexed ++ [Printed "FIRING EVENT: doorbell";
                                BusFire "doorbird_doorbell" payload] ∧
    payload !! "live_video_url" = Some (VStr "http://10.0.0.1/bha-api/video.cgi") ∧
    payload !! "live_image_url" = Some (VStr "http://10.0.0.1/bha-api/image.cgi") ∧
    payload !! "rtsp_live_video_url" = Some (VStr "rtsp://10.0.0.1:8557/mpeg/media.amp") ∧
    payload !! "html5_viewer_url" = Some (VStr "http://10.0.0.1/bha-api/view.html") ∧
    payload !! "timestamp" = Some (VStr timestamp) ∧
    parse_iso8601_utc timestamp = Some fixture.clock.
Proof.
  assert (Hattr : "entity_id" ∉ ["timestamp"; "live_video_url"; "live_image_url";
                                 "rtsp_live_video_url"; "html5_viewer_url"]).
  { intros Hin.
    repeat (apply elem_of_cons in Hin as [Hin|Hin]; [discriminate Hin|]).
    by apply elem_of_nil in Hin. }
  exact (notify_event_publishes (fixture.device_at "10.0.0.1") VNone "doorbell"
           fixture.indexed fixture.entity_ids eq_refl eq_refl Hattr).
Defined.

(** The doorbell event carries the entity the platform registered. *)
Lemma notify_event_entity_id_witness :
  let run := async_notify_event (fixture.session_at "10.0.0.1") "doorbell" fixture.indexed in
  ∃ payload : gmap string value,
    trace (snd run)
    = trace fixture.indexed ++ [Printed "FIRING EVENT: doorbell";
                                BusFire "doorbird_doorbell" payload] ∧
    payload !! "entity_id" = Some (VStr "button.front_door").
Proof.
  exact (notify_event_entity_id (fixture.device_at "10.0.0.1") VNone "doorbell"
           fixture.indexed fixture.entity_ids eq_refl).
Defined.

(** C5 as stated fails: no entity is registered for [motionsensor], and
    the payload published for it holds the entity-id field all the same,
    with the value [None]. *)
Lemma notify_event_unmapped_entity_id_present :
  let run := async_notify_event (fixture.session_at "10.0.0.1") "motionsensor"
               fixture.indexed in
  fixture.entity_ids !! "motionsensor" = None ∧
  ∃ payload : gmap string value,
    trace (snd run)
    = [Printed "FIRING EVENT: motionsensor"; BusFire "doorbird_motionsensor" payload] ∧
    payload !! ATTR_ENTITY_ID = Some VNone ∧
    payload !! ATTR_ENTITY_ID ≠ None.
Proof.
  split; [reflexivity|]. eexists. split; [reflexivity|]. split; [reflexivity|discriminate].
Qed.


(** Unloading [e1] when nothing was set up. *)
Lemma unload_without_entry_witness :
  async_unload_entry (fixture.entry_for "e1" "10.0.0.1") fixture.started
  = (Raise (KeyError "e1"), fixture.started).
Proof.
  exact (unload_without_entry (fixture.entry_for "e1" "10.0.0.1") fixture.started ∅
           eq_refl eq_refl).
Defined.

(** C7 as stated fails: the registry is there and empty, and unloading
    [e1] does not return, it raises [KeyError]. *)
Lemma unload_missing_entry_raises :
  registry fixture.started = Some ∅ ∧
  fst (async_unload_entry (fixture.entry_for "e1" "10.0.0.1") fixture.started)
  = Raise (KeyError "e1") ∧
  ∀ unload_ok : bool,
    fst (async_unload_entry (fixture.entry_for "e1" "10.0.0.1") fixture.started)
    ≠ Return unload_ok.
Proof.
  split; [reflexivity|]. split; [reflexivity|]. intros unload_ok. discriminate.
Qed.

(** Unloading [e1], whose platforms unload, and [stuck], whose platforms
    do not. *)
Lemma unload_stops_monitor_then_removes_witness :
  (let run := async_unload_entry (fixture.entry_for "e1" "10.0.0.1") fixture.loaded in
   fst run = Return true ∧
   trace (snd run)
   = trace fixture.loaded
     ++ [StopMonitoring (fixture.device_at "10.0.0.1");
         UnloadPlatforms "e1" ["button"; "camera"; "switch"]]
     ++ [Pop "e1"] ∧
   registry (snd run) = Some ∅) ∧
  (let run := async_unload_entry (fixture.entry_for "stuck" "10.0.0.1")
                fixture.loaded_stuck in
   fst run = Return false ∧
   trace (snd run)
   = trace fixture.loaded_stuck
     ++ [StopMonitoring (fixture.device_at "10.0.0.1");
         UnloadPlatforms "stuck" ["button"; "camera"; "switch"]]
     ++ [] ∧
   registry (snd run) = registry fixture.loaded_stuck ∧
   hass_data (snd run) = hass_data fixture.loaded_stuck).
Proof.
  pose (registry_entry :=
          <["door_station_info" := fixture.device_info]>
            (<["door_station" := fixture.session_at "10.0.0.1"]> (∅ : gmap string value))).
  split.
  - assert (Hloaded : registry fixture.loaded = Some (<["e1" := VDict registry_entry]> ∅))
      by (vm_compute; reflexivity).
    destruct (unload_stops_monitor_then_removes
                (fixture.entry_for "e1" "10.0.0.1") fixture.loaded
                (<["e1" := VDict registry_entry]> ∅) registry_entry
                (fixture.device_at "10.0.0.1") VNone Hloaded eq_refl eq_refl)
      as (Hresult & Htrace & Hregistry & _).
    split; [exact Hresult|]. split; [exact Htrace|exact Hregistry].
  - assert (Hloaded : registry fixture.loaded_stuck
                      = Some (<["stuck" := VDict registry_entry]> ∅))
      by (vm_compute; reflexivity).
    destruct (unload_stops_monitor_then_removes
                (fixture.entry_for "stuck" "10.0.0.1") fixture.loaded_stuck
                (<["stuck" := VDict registry_entry]> ∅) registry_entry
                (fixture.device_at "10.0.0.1") VNone Hloaded eq_refl eq_refl)
      as (Hresult & Htrace & Hregistry & Hdata).
    split; [exact Hresult|]. split; [exact Htrace|]. split; [exact Hregistry|].
    exact (Hdata eq_refl).
Defined.

(** A wireless device has only the wireless key; a wired one that also
    reports a wireless address is known by its wired address. *)
Lemma mac_address_prefers_primary_witness :
  util.get_mac_address_from_doorstation_info
    (<["WIFI_MAC_ADDR" := VStr "1CCAE3700000"]> ∅) fixture.boot
  = (Return (VStr "1CCAE3700000"), fixture.boot) ∧
  util.get_mac_address_from_doorstation_info
    (<["PRIMARY_MAC_ADDR" := VStr "1CCAE3711111"]>
       (<["WIFI_MAC_ADDR" := VStr "1CCAE3700000"]> ∅)) fixture.boot
  = (Return (VStr "1CCAE3711111"), fixture.boot).
Proof.
  split.
  - destruct (mac_address_prefers_primary
                (<["WIFI_MAC_ADDR" := VStr "1CCAE3700000"]> ∅) fixture.boot)
      as (mac & Hrun & Hmac).
    + right. apply elem_of_dom. eexists. reflexivity.
    + vm_compute in Hmac. injection Hmac as <-. exact Hrun.
  - destruct (mac_address_prefers_primary
                (<["PRIMARY_MAC_ADDR" := VStr "1CCAE3711111"]>
                   (<["WIFI_MAC_ADDR" := VStr "1CCAE3700000"]> ∅)) fixture.boot)
      as (mac & Hrun & Hmac).
    + left. apply elem_of_dom. eexists. reflexivity.
    + vm_compute in Hmac. subst mac. exact Hrun.
Defined.

End Installation.

(** ** The further properties on the concrete installation *)

Section Installation_more.
#[local] Existing Instance fixture.constants.
#[local] Existing Instance fixture.sdk.
#[local] Existing Instance fixture.host.

(** An entry without a port: the setup raises [KeyError] for the port. *)
Lemma setup_missing_config_key_witness :
  ∃ key, key ∈ ["host"; "username"; "password"; "ssl"; "port"] ∧
         data fixture_edge.entry_without_port !! key = None ∧
         async_setup_entry fixture_edge.entry_without_port fixture.started
         = (Raise (KeyError key), fixture.started).
Proof.
  exact (setup_missing_config_key fixture_edge.entry_without_port fixture.started eq_refl).
Defined.

(** A working device set up before [async_setup] has run. *)
Lemma setup_without_registry_starts_monitor_witness :
  let run := async_setup_entry (fixture.entry_for "e1" "10.0.0.1") fixture.boot in
  fst run = Raise (KeyError "doorbird") ∧
  hass_data (snd run) = hass_data fixture.boot ∧
  trace (snd run)
  = trace fixture.boot
    ++ [StartMonitoring (fixture.device_at "10.0.0.1") (fixture.session_at "10.0.0.1") "e1"].
Proof.
  exact (setup_without_registry_starts_monitor (fixture.entry_for "e1" "10.0.0.1")
           fixture.boot (fixture.device_at "10.0.0.1") (VBool true, VInt 200)
           fixture.device_info eq_refl eq_refl eq_refl eq_refl).
Defined.


(** Unloading [e1] a second time. *)
Lemma unload_twice_raises_witness :
  let unloaded := snd (async_unload_entry (fixture.entry_for "e1" "10.0.0.1") fixture.loaded) in
  async_unload_entry (fixture.entry_for "e1" "10.0.0.1") unloaded
  = (Raise (KeyError "e1"), unloaded).
Proof.
  pose (registry_entry :=
          <["door_station_info" := fixture.device_info]>
            (<["door_station" := fixture.session_at "10.0.0.1"]> (∅ : gmap string value))).
  assert (Hloaded : registry fixture.loaded = Some (<["e1" := VDict registry_entry]> ∅))
    by (vm_compute; reflexivity).
  exact (unload_twice_raises (fixture.entry_for "e1" "10.0.0.1") fixture.loaded
           (<["e1" := VDict registry_entry]> ∅) registry_entry
           (fixture.device_at "10.0.0.1") VNone Hloaded eq_refl eq_refl eq_refl).
Defined.

(** The entry [stuck] stays registered when its platforms do not unload. *)
Lemma unload_failure_keeps_session_witness :
  let run := async_unload_entry (fixture.entry_for "stuck" "10.0.0.1") fixture.loaded_stuck in
  fst run = Return false ∧
  registry (snd run) = registry fixture.loaded_stuck ∧
  trace (snd (async_unload_entry (fixture.entry_for "stuck" "10.0.0.1") (snd run)))
  = trace (snd run)
    ++ [StopMonitoring (fixture.device_at "10.0.0.1");
        UnloadPlatforms "stuck" ["button"; "camera"; "switch"]].
Proof.
  pose (registry_entry :=
          <["door_station_info" := fixture.device_info]>
            (<["door_station" := fixture.session_at "10.0.0.1"]> (∅ : gmap string value))).
  assert (Hloaded : registry fixture.loaded_stuck
                    = Some (<["stuck" := VDict registry_entry]> ∅))
    by (vm_compute; reflexivity).
  assert (Hfails : unload_platforms_ok "stuck" ["button"; "camera"; "switch"] = false)
    by reflexivity.
  destruct (unload_failure_keeps_session (fixture.entry_for "stuck" "10.0.0.1")
              fixture.loaded_stuck (<["stuck" := VDict registry_entry]> ∅) registry_entry
              (fixture.device_at "10.0.0.1") VNone Hloaded eq_refl eq_refl Hfails)
    as (Hresult & Hregistry & Htrace).
  split; [exact Hresult|]. split; [|exact Htrace].
  rewrite Hregistry. symmetry. exact Hloaded.
Defined.

(** An event that arrives before any platform has created the index. *)
Lemma notify_event_raise_publishes_nothing_witness :
  trace (snd (async_notify_event (fixture.session_at "10.0.0.1") "doorbell" fixture.started))
  = trace fixture.started ++ [Printed "FIRING EVENT: doorbell"].
Proof.
  exact (notify_event_raise_publishes_nothing (fixture.session_at "10.0.0.1") "doorbell"
           fixture.started (KeyError "door_station_event_entity_ids") eq_refl).
Defined.

Lemma notify_event_without_index_witness :
  async_notify_event (fixture.session_at "10.0.0.1") "doorbell" fixture.started
  = (Raise (KeyError "door_station_event_entity_ids"),
     emit (Printed "FIRING EVENT: doorbell") fixture.started).
Proof.
  exact (notify_event_without_index (fixture.device_at "10.0.0.1") VNone "doorbell"
           fixture.started ∅ eq_refl eq_refl).
Defined.

(** The six fields of the doorbell payload. *)
Lemma notify_event_payload_fields_witness :
  ∃ payload : gmap string value,
    trace (snd (async_notify_event (fixture.session_at "10.0.0.1") "doorbell"
                  fixture.indexed))
    = trace fixture.indexed ++ [Printed "FIRING EVENT: doorbell";
                                BusFire "doorbird_doorbell" payload] ∧
    ∀ key, key ∈ dom payload ↔
           key ∈ ["entity_id"; "timestamp"; "live_video_url"; "live_image_url";
                  "rtsp_live_video_url"; "html5_viewer_url"].
Proof.
  exact (notify_event_payload_fields (fixture.device_at "10.0.0.1") VNone "doorbell"
           fixture.indexed fixture.entity_ids eq_refl).
Defined.

(** An event type that is only a kind, without the domain. *)
Lemma describe_without_underscore_raises_witness :
  logbook.async_describe_logbook_event
    {| logbook.event_type := "doorbell"; logbook.data := ∅ |} fixture.indexed
  = (Raise IndexError, fixture.indexed).
Proof.
  exact (describe_without_underscore_raises
           {| logbook.event_type := "doorbell"; logbook.data := ∅ |} fixture.indexed eq_refl).
Defined.

(** The log line of a motion event. *)
Lemma describe_name_and_message_witness :
  ∃ description : gmap string value,
    logbook.async_describe_logbook_event
      {| logbook.event_type := "doorbird_motionsensor"; logbook.data := ∅ |} fixture.indexed
    = (Return description, fixture.indexed) ∧
    description !! "name" = Some (VStr "Doorbird") ∧
    description !! "message" = Some (VStr "Event doorbird_motionsensor was fired") ∧
    ∀ key, key ∈ dom description ↔ key ∈ ["name"; "message"; "entity_id"].
Proof.
  assert (Hnm : "name" ≠ "message") by discriminate.
  assert (Hne : "name" ≠ "entity_id") by discriminate.
  assert (Hme : "message" ≠ "entity_id") by discriminate.
  exact (describe_name_and_message "doorbird" "motionsensor" ∅ fixture.indexed
           fixture.entity_ids eq_refl eq_refl Hnm Hne Hme).
Defined.

(** The doorbell event, published and then described. *)
Lemma notify_then_describe_agree_witness :
  let published :=
    snd (async_notify_event (fixture.session_at "10.0.0.1") "doorbell" fixture.indexed) in
  ∃ (payload description : gmap string value),
    trace published
    = trace fixture.indexed ++ [Printed "FIRING EVENT: doorbell";
                                BusFire "doorbird_doorbell" payload] ∧
    logbook.async_describe_logbook_event
      {| logbook.event_type := "doorbird_doorbell"; logbook.data := payload |} published
    = (Return description, published) ∧
    description !! "entity_id" = payload !! "entity_id".
Proof.
  exact (notify_then_describe_agree (fixture.device_at "10.0.0.1") VNone "doorbell"
           fixture.indexed fixture.entity_ids eq_refl eq_refl).
Defined.

(** An info answer that only tells the firmware. *)
Lemma mac_address_missing_both_raises_witness :
  util.get_mac_address_from_doorstation_info (<["FIRMWARE" := VStr "000125"]> ∅) fixture.boot
  = (Raise (KeyError "WIFI_MAC_ADDR"), fixture.boot).
Proof.
  apply (mac_address_missing_both_raises (<["FIRMWARE" := VStr "000125"]> ∅) fixture.boot).
  - apply not_elem_of_dom. reflexivity.
  - apply not_elem_of_dom. reflexivity.
Defined.

(** With [e1] set up and the index in place, the door stations are the
    session of [e1] and nothing else. *)
Lemma all_doorstations_members_witness :
  ∃ doorstations,
    util.get_all_doorstations fixture_edge.loaded_indexed
    = (Return doorstations, fixture_edge.loaded_indexed) ∧
    (fixture.session_at "10.0.0.1" ∈ doorstations) ∧
    (VDict fixture.entity_ids ∉ doorstations).
Proof.
  pose (registry_entry :=
          <["door_station_info" := fixture.device_info]>
            (<["door_station" := fixture.session_at "10.0.0.1"]> (∅ : gmap string value))).
  pose (reg := <["e1" := VDict registry_entry]>
                 (<["door_station_event_entity_ids" := VDict fixture.entity_ids]>
                    (∅ : gmap string value))).
  assert (Hreg : registry fixture_edge.loaded_indexed = Some reg)
    by (vm_compute; reflexivity).
  destruct (all_doorstations_members fixture_edge.loaded_indexed reg Hreg)
    as (doorstations & Hrun & Hmem).
  { intros key v Hkey. subst reg.
    apply lookup_insert_Some in Hkey as [[_ <-]|[_ Hkey]]; [by eexists|].
    apply lookup_insert_Some in Hkey as [[_ <-]|[_ Hkey]]; [by eexists|].
    by rewrite lookup_empty in Hkey. }
  exists doorstations. split; [exact Hrun|]. split.
  - apply Hmem. exists "e1", registry_entry. split; reflexivity.
  - intros Hin. apply Hmem in Hin as (key & d & Hkey & Hd). subst reg.
    apply lookup_insert_Some in Hkey as [[_ Heq]|[_ Hkey]].
    + injection Heq as <-. vm_compute in Hd. discriminate Hd.
    + apply lookup_insert_Some in Hkey as [[_ Heq]|[_ Hkey]].
      * injection Heq as <-. vm_compute in Hd. discriminate Hd.
      * by rewrite lookup_empty in Hkey.
Defined.

(** The session of [e1] is listed after its setup. *)
Lemma setup_session_is_listed_witness :
  let set_up := snd (async_setup_entry (fixture.entry_for "e1" "10.0.0.1") fixture.indexed) in
  ∃ doorstations,
    util.get_all_doorstations set_up = (Return doorstations, set_up) ∧
    fixture.session_at "10.0.0.1" ∈ doorstations.
Proof.
  assert (Hne : "door_station" ≠ "door_station_info") by discriminate.
  assert (Hdicts : ∀ key v,
             (<["door_station_event_entity_ids" := VDict fixture.entity_ids]> ∅
                : gmap string value) !! key = Some v → ∃ d, v = VDict d).
  { intros key v Hkey.
    apply lookup_insert_Some in Hkey as [[_ <-]|[_ Hkey]]; [by eexists|].
    by rewrite lookup_empty in Hkey. }
  exact (setup_session_is_listed (fixture.entry_for "e1" "10.0.0.1") fixture.indexed
           (fixture.device_at "10.0.0.1") (VBool true, VInt 200) fixture.device_info
           (<["door_station_event_entity_ids" := VDict fixture.entity_ids]> ∅)
           eq_refl eq_refl eq_refl eq_refl Hdicts Hne).
Defined.

End Installation_more.

Section Installation_edge.
#[local] Existing Instance fixture.constants.
#[local] Existing Instance fixture_edge.sdk.
#[local] Existing Instance fixture.host.

(** The client fails on the info answer of [10.0.0.6] with a [KeyError]:
    the setup raises that [KeyError]. *)
Lemma setup_propagates_other_exception_witness :
  async_setup_entry (fixture.entry_for "e6" "10.0.0.6") fixture.started
  = (Raise (KeyError "BHA"), fixture.started).
Proof.
  apply (setup_propagates_other_exception (fixture.entry_for "e6" "10.0.0.6")
           fixture.started (fixture.device_at "10.0.0.6") (KeyError "BHA"));
    [reflexivity|reflexivity|discriminate|discriminate].
Defined.

(** [10.0.0.7] is not ready and rejects the credentials: the setup
    returns [False]. *)
Lemma not_ready_with_unauthorized_info_is_permanent_witness :
  let run := async_setup_entry (fixture.entry_for "e7" "10.0.0.7") fixture.started in
  fst run = Return false ∧
  hass_data (snd run) = hass_data fixture.started.
Proof.
  exact (not_ready_with_unauthorized_info_is_permanent (fixture.entry_for "e7" "10.0.0.7")
           fixture.started (fixture.device_at "10.0.0.7") (VBool false, VInt 401)
           eq_refl eq_refl eq_refl).
Defined.

(** C2 as stated fails: the readiness query of [10.0.0.7] succeeds and
    reports not-ready, the info query that follows is rejected with
    status 401, and the setup returns [False], the permanent failure; it
    does not raise [ConfigEntryNotReady]. *)
Lemma not_ready_setup_returns_false :
  let run := async_setup_entry (fixture.entry_for "e7" "10.0.0.7") fixture.started in
  ready (fixture.device_at "10.0.0.7") = Return (VBool false, VInt 401) ∧
  truthy (VBool false) = false ∧
  fst run = Return false ∧
  ∀ cause, fst run ≠ Raise (ConfigEntryNotReady cause).
Proof.
  split; [reflexivity|]. split; [reflexivity|]. split; [reflexivity|].
  intros cause. discriminate.
Qed.

End Installation_edge.
